(** * Validation of extraction results against a gold standard

    A shallow embedding of [src/validate_extraction.py]: the record loader
    ([_load_json]), the field accessor ([_get_nested], [_ensure_list]), the
    metric engine ([compute_exact_match_accuracy], [compute_list_recall]),
    [run_validation], [print_report] and [main], followed by the properties
    the specification states about them.

    Modelling conventions.
    - A Python [str] is the list of its Unicode code points ([pystr]).
    - A value produced by [json.load] is a [value]; a JSON object is the
      list of its bindings in insertion order (keys of a [dict] are unique).
    - Code that can raise returns a [result]; the primitive operations that
      raise in Python ([d[k]], [k in x], [a / b]) raise here too, so that
      "does not raise" is a statement about the guards of the code.
    - The [float] returned by [a / b] on two integers is represented by the
      exact quotient, a [Q]; Python rounds that quotient to the nearest
      double.  [0.0] is [0] and [1.0] is [1].
    - [repr] of a float and [repr] of a string (quoting and escaping) are
      parameters of the development, as is the [:.4f] format.

    The development also covers the code around the validation: the schema
    check and the reading of the agent's answer ([src/extraction.py]), the
    keyword filter ([src/data_filter.py]) and the extraction run with its
    retries ([src/main.py]).  There the regular expressions, [json.loads],
    the lowercase of characters outside ASCII and the agent itself are
    parameters; tables read with pandas are given as their columns and rows,
    and log records are kept without their time stamp. *)

From Stdlib Require Import List String Ascii Bool Arith ZArith NArith QArith.
From Stdlib Require Import Lia Permutation PrimFloat DecimalString.
Import ListNotations.

Local Open Scope Q_scope.
Local Open Scope Z_scope.
Local Open Scope N_scope.
Local Open Scope string_scope.
Local Open Scope list_scope.
Local Open Scope nat_scope.
Local Open Scope bool_scope.

(** ** Python strings *)

Definition pystr := list N.

(** The code points of an ASCII literal. *)
Definition u (s : string) : pystr := map N_of_ascii (list_ascii_of_string s).

Fixpoint pystr_eqb (a b : pystr) : bool :=
  match a, b with
  | [], [] => true
  | x :: a', y :: b' => N.eqb x y && pystr_eqb a' b'
  | _, _ => false
  end.

(** [str.isspace] on one code point: the characters CPython treats as
    white space ([_PyUnicode_IsWhitespace]). *)
Definition isspace (c : N) : bool :=
  ((9 <=? c) && (c <=? 13) || (28 <=? c) && (c <=? 32)
   || (c =? 133) || (c =? 160) || (c =? 5760)
   || (8192 <=? c) && (c <=? 8202)
   || (c =? 8232) || (c =? 8233) || (c =? 8239) || (c =? 8287)
   || (c =? 12288))%N.

Fixpoint lstrip (s : pystr) : pystr :=
  match s with
  | c :: s' => if isspace c then lstrip s' else s
  | [] => []
  end.

(** [s.strip()] *)
Definition strip (s : pystr) : pystr := rev (lstrip (rev (lstrip s))).

Fixpoint join (sep : pystr) (parts : list pystr) : pystr :=
  match parts with
  | [] => []
  | [p] => p
  | p :: rest => p ++ sep ++ join sep rest
  end.

Fixpoint is_prefix (a s : pystr) : bool :=
  match a, s with
  | [], _ => true
  | x :: a', y :: s' => N.eqb x y && is_prefix a' s'
  | _ :: _, [] => false
  end.

(** [a in s] on two strings: [a] occurs in [s] as a substring. *)
Fixpoint is_substring (a s : pystr) : bool :=
  is_prefix a s ||
  match s with
  | [] => false
  | _ :: s' => is_substring a s'
  end.

(** ** JSON values as [json.load] builds them *)

#[local] Unset Elimination Schemes.
Inductive value : Type :=
| VNone
| VBool (b : bool)
| VInt (z : Z)
| VFloat (f : float)
| VStr (s : pystr)
| VList (xs : list value)
| VDict (kvs : list (pystr * value)).
#[local] Set Elimination Schemes.

Definition is_none (v : value) : bool :=
  match v with VNone => true | _ => false end.

Definition is_list (v : value) : bool :=
  match v with VList _ => true | _ => false end.

Definition is_dict (v : value) : bool :=
  match v with VDict _ => true | _ => false end.

Definition is_str (v : value) : bool :=
  match v with VStr _ => true | _ => false end.

(** [type(v).__name__] *)
Definition type_name (v : value) : string :=
  match v with
  | VNone => "NoneType"
  | VBool _ => "bool"
  | VInt _ => "int"
  | VFloat _ => "float"
  | VStr _ => "str"
  | VList _ => "list"
  | VDict _ => "dict"
  end.

(** [bool(v)]: the truth value used by [or]. *)
Definition py_truthy (v : value) : bool :=
  match v with
  | VNone => false
  | VBool b => b
  | VInt z => negb (Z.eqb z 0)
  | VFloat f => negb (PrimFloat.eqb f PrimFloat.zero)
  | VStr s => match s with [] => false | _ => true end
  | VList xs => match xs with [] => false | _ => true end
  | VDict kvs => match kvs with [] => false | _ => true end
  end.

(** [a or b] *)
Definition py_or (a b : value) : value := if py_truthy a then a else b.

(** [v == s] for a string [s]: only an equal string compares equal. *)
Definition py_eq_str (v : value) (s : pystr) : bool :=
  match v with
  | VStr t => pystr_eqb t s
  | _ => false
  end.

(** ** Exceptions *)

(** [OSError] stands for an [OSError] other than [FileNotFoundError], such
    as [IsADirectoryError] or [PermissionError]. *)
Inductive exn : Type :=
| FileNotFoundError (msg : string)
| ValueError (msg : string)
| JSONDecodeError (msg : string)
| OSError (msg : string)
| KeyError (key : pystr)
| TypeError
| ZeroDivisionError.

Inductive result (A : Type) : Type :=
| Ok (a : A)
| Raise (e : exn).
Arguments Ok {A} a.
Arguments Raise {A} e.

Definition bind {A B : Type} (m : result A) (k : A -> result B) : result B :=
  match m with
  | Ok a => k a
  | Raise e => Raise e
  end.

Notation "x <- m ;; k" := (bind m (fun x => k))
  (at level 61, m at next level, right associativity).

(** A loop [for x in xs: acc = body(acc, x)] whose body may raise. *)
Fixpoint for_each {A S : Type} (body : S -> A -> result S) (xs : list A) (acc : S)
  : result S :=
  match xs with
  | [] => Ok acc
  | x :: rest => acc' <- body acc x ;; for_each body rest acc'
  end.

(** ** Operations on values that can raise *)

Fixpoint dict_get (kvs : list (pystr * value)) (key : pystr) : option value :=
  match kvs with
  | [] => None
  | (k, v) :: rest => if pystr_eqb k key then Some v else dict_get rest key
  end.

(** [key in container] for a string [key]. *)
Definition py_in (key : pystr) (container : value) : result bool :=
  match container with
  | VDict kvs => Ok (match dict_get kvs key with Some _ => true | None => false end)
  | VList xs => Ok (existsb (fun x => py_eq_str x key) xs)
  | VStr s => Ok (is_substring key s)
  | _ => Raise TypeError
  end.

(** [container[key]] for a string [key]. *)
Definition py_getitem (container : value) (key : pystr) : result value :=
  match container with
  | VDict kvs =>
      match dict_get kvs key with
      | Some v => Ok v
      | None => Raise (KeyError key)
      end
  | _ => Raise TypeError
  end.

(** [a / b] on two non-negative integers. *)
Definition py_truediv (a b : nat) : result Q :=
  if Nat.eqb b 0 then Raise ZeroDivisionError
  else Ok (Z.of_nat a # Pos.of_nat b).

(** ** Record loader *)

Definition Path := string.

(** What the loader finds at a path: nothing; something that exists but
    that [open] refuses with the given [OSError] (a directory, a file without
    read permission); a file [json.load] rejects with the given message; or a
    file that parses to [data]. *)
Inductive file : Type :=
| Missing
| Unreadable (msg : string)
| Unparsable (msg : string)
| Json (data : value).

Definition filesystem := Path -> file.

(** [path.exists()] *)
Definition path_exists (fs : filesystem) (path : Path) : bool :=
  match fs path with
  | Missing => false
  | _ => true
  end.

(** [with open(path) as f: json.load(f)] *)
Definition json_load (fs : filesystem) (path : Path) : result value :=
  match fs path with
  | Missing =>
      Raise (FileNotFoundError
               ("[Errno 2] No such file or directory: '" ++ path ++ "'"))
  | Unreadable msg => Raise (OSError msg)
  | Unparsable msg => Raise (JSONDecodeError msg)
  | Json data => Ok data
  end.

Definition _load_json (fs : filesystem) (path : Path) : result (list value) :=
  if negb (path_exists fs path) then
    Raise (FileNotFoundError ("Missing file: " ++ path))
  else
    data <- json_load fs path ;;
    match data with
    | VList records => Ok records
    | _ =>
        Raise (ValueError ("Expected a JSON list in " ++ path ++ ", got "
                             ++ type_name data))
    end.

(** ** Field accessor *)

(** The loop of [_get_nested] over the remaining [keys], followed by the
    two statements after it.  [default_list] is [VNone] when the caller
    leaves the keyword argument out. *)
Fixpoint _get_nested_from (default_list : value) (current : value)
  (keys : list pystr) : result value :=
  let default := if negb (is_none default_list) then VList [] else VStr [] in
  match keys with
  | key :: rest =>
      present <- (if is_dict current then py_in key current else Ok false) ;;
      if present then
        next <- py_getitem current key ;;
        _get_nested_from default_list next rest
      else Ok default
  | [] =>
      if negb (is_none default_list) && negb (is_list current) then Ok (VList [])
      else Ok (if negb (is_none current) then current else default)
  end.

Definition _get_nested (obj : value) (keys : list pystr) (default_list : value)
  : result value :=
  _get_nested_from default_list obj keys.

Definition _ensure_list (val : value) : list value :=
  if is_none val then []
  else match val with
       | VList items => items
       | _ => []
       end.

(** The accessors [run_validation] defines. *)

Definition get_diabetes_type (obj : value) : result value :=
  v <- _get_nested obj [u "diabetes"; u "type"] VNone ;;
  Ok (py_or v (VStr [])).

Definition get_diabetes_status (obj : value) : result value :=
  v <- _get_nested obj [u "diabetes"; u "status"] VNone ;;
  Ok (py_or v (VStr [])).

Definition get_diabetes_a1c (obj : value) : result value :=
  v <- _get_nested obj [u "diabetes"; u "a1c_values"] (VList []) ;;
  Ok (VList (_ensure_list v)).

Definition get_diabetes_glucose (obj : value) : result value :=
  v <- _get_nested obj [u "diabetes"; u "glucose_values"] (VList []) ;;
  Ok (VList (_ensure_list v)).

Definition get_bp_status (obj : value) : result value :=
  v <- _get_nested obj [u "blood_pressure"; u "hypertension_status"] VNone ;;
  Ok (py_or v (VStr [])).

Definition get_bp_readings (obj : value) : result value :=
  v <- _get_nested obj [u "blood_pressure"; u "bp_readings"] (VList []) ;;
  Ok (VList (_ensure_list v)).

(** The six accessors, scalar ones first. *)
Definition scalar_accessors : list (value -> result value) :=
  [get_diabetes_type; get_diabetes_status; get_bp_status].

Definition list_accessors : list (value -> result value) :=
  [get_diabetes_a1c; get_diabetes_glucose; get_bp_readings].

(** ** [str] and [repr] *)

(** The decimal digits of an integer, as [str] prints an [int]. *)
Definition int_decimal (z : Z) : pystr := u (NilZero.string_of_int (Z.to_int z)).

(** ** Sample data for the examples *)

(** Stand-ins for the parameters of the development, used to run the
    examples: [sample_str_repr] is [repr] on strings of printable ASCII
    without quotes or backslashes; the examples hold no float and print no
    metric line. *)
Definition sample_str_repr (s : pystr) : pystr := u "'" ++ s ++ u "'".

Definition sample_float_repr (f : float) : pystr := u "nan".

Definition sample_format_4f (q : Q) : string := "0.0000".

Definition sample_root : Path := "/srv/project".

Definition str_list (items : list string) : value :=
  VList (map (fun s => VStr (u s)) items).

(** A record with a diabetes type and A1C values. *)
Definition sample_record (type : string) (a1c : list string) : value :=
  VDict [(u "diabetes",
          VDict [(u "type", VStr (u type)); (u "a1c_values", str_list a1c)])].

Definition sample_gold : list value :=
  [ sample_record "Type 2 diabetes mellitus" ["7.2%"; "8.1%"];
    sample_record "Type 1" ["6.5%"];
    sample_record "" [] ].

Definition sample_pred : list value :=
  [ sample_record " Type 2 diabetes mellitus " ["8.1%"; "7.2 %"];
    sample_record "type 1" ["6.5%"] ].

(** The predictions with the items of the first list swapped. *)
Definition sample_pred_swapped : list value :=
  [ sample_record " Type 2 diabetes mellitus " ["7.2 %"; "8.1%"];
    sample_record "type 1" ["6.5%"] ].

(** Records without any list item. *)
Definition sample_gold_no_items : list value :=
  [ sample_record "Type 1" []; VDict [(u "diabetes", VStr (u "none"))] ].

(** A record whose diabetes type is the number 2. *)
Definition numeric_type_record : value :=
  VDict [(u "diabetes", VDict [(u "type", VInt 2)])].

Definition sample_fs : filesystem :=
  fun path =>
    if String.eqb path "gold.json" then Json (VList sample_gold)
    else if String.eqb path "pred.json" then Json (VList sample_pred)
    else if String.eqb path "gold2.json" then Json (VList (firstn 2 sample_gold))
    else if String.eqb path "empty.json" then Json (VList [])
    else if String.eqb path "object.json" then Json (VDict [])
    else if String.eqb path "broken.json"
         then Unparsable "Expecting value: line 1 column 1 (char 0)"
    else Missing.

(** The scalar accessors of the validation run with the paths they read. *)
Definition scalar_accessor_paths : list ((value -> result value) * list pystr) :=
  [ (get_diabetes_type, [u "diabetes"; u "type"]);
    (get_diabetes_status, [u "diabetes"; u "status"]);
    (get_bp_status, [u "blood_pressure"; u "hypertension_status"]) ].

(** ** Schema validation of an extracted record ([src/extraction.py]) *)

(** [[ key not in obj or not isinstance(obj[key], dict) ]] *)
Definition not_an_object_at (obj : value) (key : pystr) : result bool :=
  present <- py_in key obj ;;
  if negb present then Ok true
  else entry <- py_getitem obj key ;; Ok (negb (is_dict entry)).

(** The loop of [_validate_schema] over the required keys. *)
Fixpoint require_keys (obj : value) (keys : list string) : result unit :=
  match keys with
  | [] => Ok tt
  | key :: rest =>
      present <- py_in (u key) obj ;;
      if negb present then Raise (ValueError ("Missing required key: " ++ key))
      else require_keys obj rest
  end.

Definition _validate_schema (obj : value) : result unit :=
  if negb (is_dict obj) then Raise (ValueError "Root must be a JSON object")
  else
    bad <- not_an_object_at obj (u "diabetes") ;;
    if bad then Raise (ValueError "Missing or invalid 'diabetes' object")
    else
      bad <- not_an_object_at obj (u "blood_pressure") ;;
      if bad then Raise (ValueError "Missing or invalid 'blood_pressure' object")
      else
        _ <- require_keys obj
               ["patient_id"; "diabetes"; "blood_pressure"; "abnormal_markers"] ;;
        markers <- py_getitem obj (u "abnormal_markers") ;;
        if negb (is_list markers)
        then Raise (ValueError "'abnormal_markers' must be an array")
        else Ok tt.

(** The record [main] of [src/main.py] stores for a note whose extraction
    failed with the error text [err]. *)
Definition error_record (patient_id err : pystr) : value :=
  VDict [ (u "patient_id", VStr patient_id);
          (u "error", VStr err);
          (u "diabetes", VDict []);
          (u "blood_pressure", VDict []);
          (u "abnormal_markers", VList []) ].

(** The shape [_validate_schema] asks for: a mapping with the objects
    [diabetes] and [blood_pressure], a [patient_id] of any kind and the
    array [abnormal_markers]. *)
Definition schema_valid (obj : value) : bool :=
  match obj with
  | VDict kvs =>
      match dict_get kvs (u "diabetes"), dict_get kvs (u "blood_pressure"),
            dict_get kvs (u "patient_id"), dict_get kvs (u "abnormal_markers") with
      | Some (VDict _), Some (VDict _), Some _, Some (VList _) => true
      | _, _, _, _ => false
      end
  | _ => false
  end.

(** The messages [_validate_schema] can fail with. *)
Definition schema_messages : list string :=
  [ "Root must be a JSON object";
    "Missing or invalid 'diabetes' object";
    "Missing or invalid 'blood_pressure' object";
    "Missing required key: patient_id";
    "Missing required key: abnormal_markers";
    "'abnormal_markers' must be an array" ].

(** [s.startswith(a)] and [s.endswith(a)] *)
Definition startswith (s a : pystr) : bool := is_prefix a s.

Definition endswith (s a : pystr) : bool := is_prefix (rev a) (rev s).

(** [a or b] where [a] is a string or [None]. *)
Definition str_or (a : option pystr) (b : option pystr) : option pystr :=
  match a with
  | Some (_ :: _) => a
  | _ => b
  end.

(** [s[-n:]] for a positive [n] *)
Definition last_chars (n : nat) (s : pystr) : pystr :=
  skipn (List.length s - n) s.

(** What [run_extraction] logs. *)
Inductive extraction_log : Type :=
| LogJsonDecodeError (e : string) (raw_tail : pystr).

(** ** Tables read with pandas ([src/data_filter.py], [src/main.py]) *)

(** A cell of a table read from a CSV file: missing, or a string, an
    integer, a float or a boolean. *)
Inductive cell : Type :=
| CellNA
| CellStr (s : pystr)
| CellInt (z : Z)
| CellFloat (f : float)
| CellBool (b : bool).

(** [pd.isna(c)] *)
Definition pd_isna (c : cell) : bool :=
  match c with
  | CellNA => true
  | CellFloat f => PrimFloat.is_nan f
  | _ => false
  end.

(** The cell as the value [str] is applied to. *)
Definition cell_value (c : cell) : value :=
  match c with
  | CellNA => VNone
  | CellStr s => VStr s
  | CellInt z => VInt z
  | CellFloat f => VFloat f
  | CellBool b => VBool b
  end.

(** A table or a chunk of one: the column names, and the rows as the cells
    under these names. *)
Record frame : Type := {
  columns : list pystr;
  rows : list (list cell)
}.

(** The row as a mapping from its column names: [row.get(col)]. *)
Fixpoint row_get (names : list pystr) (row : list cell) (col : pystr)
  : option cell :=
  match names, row with
  | name :: names', c :: row' =>
      if pystr_eqb name col then Some c else row_get names' row' col
  | _, _ => None
  end.

(** [col in names] *)
Definition has_column (names : list pystr) (col : pystr) : bool :=
  existsb (fun name => pystr_eqb name col) names.

(** [row[col]] for a column the table has. *)
Definition row_item (names : list pystr) (row : list cell) (col : pystr) : cell :=
  match row_get names row col with
  | Some c => c
  | None => CellNA
  end.

(** The lowercase of an ASCII character. *)
Definition ascii_lower (c : N) : N :=
  if ((65 <=? c) && (c <=? 90))%N then (c + 32)%N else c.

(** ** The keyword filter ([src/data_filter.py]) *)

Definition KEYWORDS : list pystr := [u "diabetes"; u "hypertension"; u "a1c"].

(** The content of a CSV file written with [to_csv]: the header line and
    the rows below it. *)
Record csv_file : Type := {
  csv_header : list pystr;
  csv_rows : list (list cell)
}.

Inductive filter_error : Type :=
| InputFileNotFound (path : Path)
| TextColumnMissing (available : list pystr).

(** What [run_filter] logs, without the time stamp. *)
Inductive filter_log : Type :=
| LogStarting (path : Path)
| LogChunk (chunk_number scanned matched_count total_scanned total_matched : nat)
| LogFinished (total_scanned total_matched : nat) (path : Path).

(** The local variables of [run_filter], the output file and the log. *)
Record filter_state : Type := {
  total_scanned : nat;
  total_matched : nat;
  chunk_number : nat;
  write_header : bool;
  output_file : option csv_file;
  filter_logged : list filter_log
}.

(** [_ensure_text_column] *)
Definition _ensure_text_column (df : frame) : option filter_error :=
  if negb (has_column (columns df) (u "text"))
  then Some (TextColumnMissing (columns df))
  else None.

(** [matched_chunk.to_csv(OUTPUT_PATH, mode=..., header=write_header)]:
    mode [w] replaces the file, mode [a] adds the rows to it. *)
Definition to_csv (names : list pystr) (matched : list (list cell))
  (header : bool) (file : option csv_file) : option csv_file :=
  if header then Some {| csv_header := names; csv_rows := matched |}
  else match file with
       | Some f => Some {| csv_header := csv_header f;
                           csv_rows := csv_rows f ++ matched |}
       | None => Some {| csv_header := []; csv_rows := matched |}
       end.

(** ** The extraction run ([src/main.py]) *)

Definition MAX_429_RETRIES : nat := 3.

Definition DEFAULT_429_WAIT_SEC : Q := 32.

Definition MAX_ROWS : nat := 5.

Definition TEXT_COLUMN : pystr := u "text".

Definition PATIENT_ID_COLUMNS : list pystr :=
  [u "subject_id"; u "hadm_id"; u "patient_id"].

(** How one call of [run_extraction] ends: with a record, with a
    [ValueError] or with another exception; [err] is [str(e)]. *)
Inductive attempt : Type :=
| Returns (out : value)
| RaisesValueError (err : pystr)
| RaisesOther (err : pystr).

Inductive main_error : Type :=
| ApiKeyMissing
| NotesFileNotFound
| NotesTextColumnMissing (available : list pystr).

(** What [main] of [src/main.py] logs, without the time stamp. *)
Inductive main_log : Type :=
| LogEmptyNote (idx : nat)
| LogExtractionOk (patient_id : pystr)
| LogExtractionFailed (patient_id err : pystr)
| LogQuotaWait (wait_sec : Q) (retry : nat) (patient_id : pystr)
| LogFailedAfterRetries (patient_id err : pystr)
| LogWrote (count : nat).

(** The state of the extraction run: the results so far, the number of
    calls of [run_extraction], the waits of [time.sleep] and the log. *)
Record run_state : Type := {
  results : list value;
  calls : nat;
  sleeps : list Q;
  main_logged : list main_log
}.

(** [validate_settings]: the key is set and is not the placeholder. *)
Definition validate_settings (api_key : option pystr) : option main_error :=
  match api_key with
  | Some (c :: key) =>
      if pystr_eqb (c :: key) (u "your_gemini_api_key_here")
      then Some ApiKeyMissing else None
  | _ => Some ApiKeyMissing
  end.

(** ** Sample data for the extraction pipeline *)

(** Stand-ins for the parameters of the pipeline, used to run the examples:
    the pattern is never reached on the sample answers, the sample texts are
    ASCII, and the other three agree with Python on the sample inputs. *)
Definition sample_json_block_matches (text : pystr)
  : list (option pystr * option pystr) := [].

Definition sample_lower_nonascii (whole : pystr) (i : nat) : list N := [].

Definition quoted (s : string) : pystr := [34%N] ++ u s ++ [34%N].

(** An answer of the agent: a JSON object with the four required keys. *)
Definition sample_answer : pystr :=
  u "{" ++ quoted "patient_id" ++ u ": " ++ quoted "7" ++ u ", "
    ++ quoted "diabetes" ++ u ": {}, "
    ++ quoted "blood_pressure" ++ u ": {}, "
    ++ quoted "abnormal_markers" ++ u ": []}".

Definition sample_extracted : value :=
  VDict [ (u "patient_id", VStr (u "7"));
          (u "diabetes", VDict []);
          (u "blood_pressure", VDict []);
          (u "abnormal_markers", VList []) ].

Definition sample_json_loads (s : pystr) : value + string :=
  if pystr_eqb s sample_answer then inl sample_extracted
  else inr "Expecting value: line 1 column 1 (char 0)".

Definition quota_error : pystr :=
  u "429 RESOURCE_EXHAUSTED. Please retry in 31.98s.".

Definition sample_retry_after (err_str : pystr) : option Q :=
  if is_substring (u "retry in 31.98s") err_str then Some (3198 # 100)
  else None.

(** An agent that hits the quota on the first call, answers the second and
    gives no JSON afterwards. *)
Definition sample_extraction (k : nat) (patient_id note_text : pystr) : attempt :=
  match k with
  | 0 => RaisesOther quota_error
  | 1 => Returns sample_extracted
  | _ => RaisesValueError
           (u "Agent output is not valid JSON: Expecting value: line 1 column 1 (char 0)")
  end.

Definition sample_notes : frame :=
  {| columns := [u "subject_id"; u "text"];
     rows := [ [CellInt 10000032; CellStr (u "History of Type 2 Diabetes, A1C 7.2%")];
               [CellInt 10000048; CellNA];
               [CellInt 10000117; CellStr (u "HTN, on lisinopril")] ] |}.

Definition sample_chunks : list frame :=
  [ {| columns := [u "note_id"; u "text"];
       rows := [ [CellInt 1; CellStr (u "Prediabetes noted")];
                 [CellInt 2; CellStr (u "Fracture of wrist")] ] |};
    {| columns := [u "note_id"; u "text"];
       rows := [ [CellInt 3; CellNA];
                 [CellInt 4; CellStr (u "HYPERTENSION, stable")] ] |} ].

(** The sample files beside a directory named [data]. *)
Definition sample_fs_with_directory : filesystem :=
  fun path =>
    if String.eqb path "data" then Unreadable "[Errno 21] Is a directory: 'data'"
    else sample_fs path.

Section Validation.

(** [repr] of a float (the shortest decimal that reads back as the same
    double) and [repr] of a string (the quoted, escaped literal). *)
Variable float_repr : float -> pystr.
Variable str_repr : pystr -> pystr.

Fixpoint py_repr (v : value) : pystr :=
  match v with
  | VNone => u "None"
  | VBool b => if b then u "True" else u "False"
  | VInt z => int_decimal z
  | VFloat f => float_repr f
  | VStr s => str_repr s
  | VList xs => u "[" ++ join (u ", ") (map py_repr xs) ++ u "]"
  | VDict kvs =>
      u "{" ++ join (u ", ")
                 (map (fun kv => match kv with
                                 | (k, x) => str_repr k ++ u ": " ++ py_repr x
                                 end) kvs)
        ++ u "}"
  end.

(** [str(v)]: a string is itself, anything else prints as its [repr]. *)
Definition py_str (v : value) : pystr :=
  match v with
  | VStr s => s
  | _ => py_repr v
  end.

(** ** Metric engine *)

(** The normalisation of a scalar in [compute_exact_match_accuracy]:
    [[ "" if g is None or g == "" else str(g).strip() ]] *)
Definition scalar_str (g : value) : pystr :=
  if is_none g || py_eq_str g [] then [] else strip (py_str g).

(** One iteration of the loop of [compute_exact_match_accuracy]. *)
Definition exact_match_body (getter_gold getter_pred : value -> result value)
  (correct : nat) (pair : value * value) : result nat :=
  let (gold, pred) := pair in
  g <- getter_gold gold ;;
  p <- getter_pred pred ;;
  let g_str := scalar_str g in
  let p_str := scalar_str p in
  Ok (if pystr_eqb g_str p_str then correct + 1 else correct).

Definition compute_exact_match_accuracy (gold_list pred_list : list value)
  (getter_gold getter_pred : value -> result value) : result Q :=
  let n := List.length gold_list in
  if Nat.eqb n 0 then Ok 0%Q
  else
    correct <- for_each (exact_match_body getter_gold getter_pred)
                 (combine gold_list pred_list) 0 ;;
    py_truediv correct n.

(** One iteration of the inner loop of [compute_list_recall], on the pair
    [(total_tp, total_fn)]. *)
Definition recall_item_body (p_items : list value) (totals : nat * nat)
  (g_item : value) : nat * nat :=
  let (total_tp, total_fn) := totals in
  let g_str := strip (py_str g_item) in
  if existsb (pystr_eqb g_str) (map (fun x => strip (py_str x)) p_items)
  then (total_tp + 1, total_fn)
  else (total_tp, total_fn + 1).

(** One iteration of the outer loop of [compute_list_recall]. *)
Definition recall_record_body (getter_gold getter_pred : value -> result value)
  (totals : nat * nat) (pair : value * value) : result (nat * nat) :=
  let (gold, pred) := pair in
  g <- getter_gold gold ;;
  let g_items := _ensure_list g in
  p <- getter_pred pred ;;
  let p_items := _ensure_list p in
  Ok (fold_left (recall_item_body p_items) g_items totals).

Definition compute_list_recall (gold_list pred_list : list value)
  (getter_gold getter_pred : value -> result value) : result Q :=
  totals <- for_each (recall_record_body getter_gold getter_pred)
              (combine gold_list pred_list) (0, 0) ;;
  let (total_tp, total_fn) := totals in
  let total_relevant := total_tp + total_fn in
  if Nat.eqb total_relevant 0 then Ok 1%Q
  else py_truediv total_tp total_relevant.

(** ** [run_validation] *)

(** The mapping [run_validation] returns; its keys are fixed. *)
Record metrics : Type := {
  n_samples : nat;
  diabetes_type_accuracy : Q;
  diabetes_status_accuracy : Q;
  diabetes_a1c_recall : Q;
  diabetes_glucose_recall : Q;
  bp_hypertension_status_accuracy : Q;
  bp_readings_recall : Q
}.

Definition run_validation (fs : filesystem) (gold_path extraction_path : Path)
  : result metrics :=
  gold_list <- _load_json fs gold_path ;;
  pred_list <- _load_json fs extraction_path ;;
  let n := Nat.min (List.length gold_list) (List.length pred_list) in
  if Nat.eqb n 0 then
    Ok {| n_samples := 0;
          diabetes_type_accuracy := 0%Q;
          diabetes_status_accuracy := 0%Q;
          diabetes_a1c_recall := 1%Q;
          diabetes_glucose_recall := 1%Q;
          bp_hypertension_status_accuracy := 0%Q;
          bp_readings_recall := 1%Q |}
  else
    let gold_slice := firstn n gold_list in
    let pred_slice := firstn n pred_list in
    type_acc <- compute_exact_match_accuracy gold_slice pred_slice
                  get_diabetes_type get_diabetes_type ;;
    status_acc <- compute_exact_match_accuracy gold_slice pred_slice
                    get_diabetes_status get_diabetes_status ;;
    a1c_rec <- compute_list_recall gold_slice pred_slice
                 get_diabetes_a1c get_diabetes_a1c ;;
    glucose_rec <- compute_list_recall gold_slice pred_slice
                     get_diabetes_glucose get_diabetes_glucose ;;
    bp_acc <- compute_exact_match_accuracy gold_slice pred_slice
                get_bp_status get_bp_status ;;
    bp_rec <- compute_list_recall gold_slice pred_slice
                get_bp_readings get_bp_readings ;;
    Ok {| n_samples := n;
          diabetes_type_accuracy := type_acc;
          diabetes_status_accuracy := status_acc;
          diabetes_a1c_recall := a1c_rec;
          diabetes_glucose_recall := glucose_rec;
          bp_hypertension_status_accuracy := bp_acc;
          bp_readings_recall := bp_rec |}.

(** ** Report and entry point *)

(** The [:.4f] rendering of a metric. *)
Variable format_4f : Q -> string.

(** The directory two levels above the module file. *)
Variable PROJECT_ROOT : Path.

Definition GOLD_PATH : Path := (PROJECT_ROOT ++ "/data/gold_standard.json")%string.
Definition EXTRACTION_PATH : Path :=
  (PROJECT_ROOT ++ "/data/extraction_results.json")%string.

Definition newline : string := String (ascii_of_nat 10) EmptyString.

(** [s * k] *)
Fixpoint str_times (s : string) (k : nat) : string :=
  match k with
  | O => EmptyString
  | S k' => s ++ str_times s k'
  end.

(** [f"{n}"] for a non-negative integer. *)
Definition format_int (n : nat) : string := NilZero.string_of_uint (Nat.to_uint n).

(** [print_report] returns the lines it prints, one per call of [print]. *)
Definition print_report (m : metrics) : list string :=
  let n := n_samples m in
  [ str_times "=" 60;
    "  EXTRACTION VALIDATION REPORT (Gold vs Agent Output)";
    str_times "=" 60;
    (newline ++ "  Total samples evaluated: " ++ format_int n)%string ]
  ++
  if Nat.eqb n 0 then
    [ (newline ++ "  No samples to evaluate. Exiting.")%string;
      str_times "=" 60 ]
  else
    [ "";
      "  Diabetes";
      "  --------";
      ("    diabetes.type          (exact-match accuracy): "
         ++ format_4f (diabetes_type_accuracy m))%string;
      ("    diabetes.status        (exact-match accuracy): "
         ++ format_4f (diabetes_status_accuracy m))%string;
      ("    diabetes.a1c_values    (recall):               "
         ++ format_4f (diabetes_a1c_recall m))%string;
      ("    diabetes.glucose_values (recall):              "
         ++ format_4f (diabetes_glucose_recall m))%string;
      "";
      "  Blood Pressure";
      "  ---------------";
      ("    blood_pressure.hypertension_status (exact-match accuracy): "
         ++ format_4f (bp_hypertension_status_accuracy m))%string;
      ("    blood_pressure.bp_readings         (recall):               "
         ++ format_4f (bp_readings_recall m))%string;
      "";
      "  Metric definitions:";
      "    - Exact-match accuracy: fraction of samples where predicted value equals gold value.";
      "    - Recall (list fields): TP/(TP+FN); gold items that appear in prediction;";
      "      missing predictions for a gold item count as false negatives.";
      str_times "=" 60 ].

(** What a run of [main] leaves behind: the lines written to the two
    streams and the value returned (or the exception that escapes). *)
Record outcome : Type := {
  stdout : list string;
  stderr : list string;
  returned : result Z
}.

(** The [try] statement of [main] on the two chosen paths. *)
Definition main_try (fs : filesystem) (gold_path extraction_path : Path)
  : outcome :=
  match run_validation fs gold_path extraction_path with
  | Ok m =>
      {| stdout := print_report m; stderr := []; returned := Ok 0%Z |}
  | Raise (FileNotFoundError e) =>
      {| stdout := []; stderr := [("Error: " ++ e)%string]; returned := Ok 1%Z |}
  | Raise (ValueError e) | Raise (JSONDecodeError e) =>
      {| stdout := []; stderr := [("Error: " ++ e)%string]; returned := Ok 1%Z |}
  | Raise e =>
      {| stdout := []; stderr := []; returned := Raise e |}
  end.

(** [argv] is [sys.argv]. *)
Definition main (fs : filesystem) (argv : list string) : outcome :=
  if Nat.leb 3 (List.length argv) then
    main_try fs (nth 1 argv "") (nth 2 argv "")
  else if Nat.eqb (List.length argv) 2 then
    {| stdout := [];
       stderr := ["Usage: validate_extraction.py [gold_standard.json extraction_results.json]"];
       returned := Ok 1%Z |}
  else
    main_try fs GOLD_PATH EXTRACTION_PATH.

(** ** Definitions that follow the specification *)

(** A getter that returns [f record] and never raises. *)
Definition returns (f : value -> value) : value -> result value :=
  fun record => Ok (f record).

Definition pystr_eq_dec : forall a b : pystr, {a = b} + {a <> b} :=
  list_eq_dec N.eq_dec.

(** The value a path of keys leads to; there is none when a value on the
    way is not a mapping or lacks the key. *)
Fixpoint lookup_path (obj : value) (keys : list pystr) : option value :=
  match keys with
  | [] => Some obj
  | key :: rest =>
      match obj with
      | VDict kvs =>
          match dict_get kvs key with
          | Some v => lookup_path v rest
          | None => None
          end
      | _ => None
      end
  end.

(** The default of the field accessor: the empty sequence when a list is
    wanted, the empty string otherwise. *)
Definition typed_default (want_list : bool) : value :=
  if want_list then VList [] else VStr [].

(** A string, or a sequence of strings. *)
Definition str_or_str_list (v : value) : bool :=
  match v with
  | VStr _ => true
  | VList items => forallb is_str items
  | _ => false
  end.

(** What a scalar accessor yields for a path: the value found when it is
    truthy, the empty string otherwise. *)
Definition scalar_at (obj : value) (keys : list pystr) : value :=
  match lookup_path obj keys with
  | Some v => if py_truthy v then v else VStr []
  | None => VStr []
  end.

(** What a list accessor yields for a path: the list found, or the empty
    list when nothing or something else is found. *)
Definition list_at (obj : value) (keys : list pystr) : list value :=
  match lookup_path obj keys with
  | Some (VList items) => items
  | _ => []
  end.

(** Normalisation of a scalar: null or the empty string become the empty
    string, anything else is stringified and stripped. *)
Definition normalized (v : value) : pystr :=
  match v with
  | VNone => []
  | VStr [] => []
  | _ => strip (py_str v)
  end.

(** A pair of records is correct when the normalised strings are equal. *)
Definition pair_correct (get_gold get_pred : value -> value)
  (pair : value * value) : bool :=
  if pystr_eq_dec (normalized (get_gold (fst pair)))
                  (normalized (get_pred (snd pair)))
  then true else false.

Definition correct_pairs (get_gold get_pred : value -> value)
  (pairs : list (value * value)) : nat :=
  List.length (filter (pair_correct get_gold get_pred) pairs).

(** Exact-match accuracy over aligned sequences: [0.0] for no records,
    else the share of correct pairs. *)
Definition exact_match_accuracy (gold_seq pred_seq : list value)
  (get_gold get_pred : value -> value) : Q :=
  let pairs := combine gold_seq pred_seq in
  match pairs with
  | [] => 0%Q
  | _ => Z.of_nat (correct_pairs get_gold get_pred pairs)
         # Pos.of_nat (List.length pairs)
  end.

(** A gold item is found when an item of the predicted list has the same
    stripped string. *)
Definition item_found (p_items : list value) (g_item : value) : bool :=
  existsb (fun x => if pystr_eq_dec (strip (py_str x)) (strip (py_str g_item))
                    then true else false) p_items.

(** True positives and false negatives of one record. *)
Definition record_tp (record : list value * list value) : nat :=
  List.length (filter (item_found (snd record)) (fst record)).

Definition record_fn (record : list value * list value) : nat :=
  List.length (filter (fun g => negb (item_found (snd record) g)) (fst record)).

(** The gold and predicted lists of the aligned records. *)
Definition aligned_lists (get_gold get_pred : value -> value)
  (gold_seq pred_seq : list value) : list (list value * list value) :=
  map (fun pair => (_ensure_list (get_gold (fst pair)),
                    _ensure_list (get_pred (snd pair))))
      (combine gold_seq pred_seq).

(** Micro-averaged recall: the counts are summed over all records before
    the division. *)
Definition micro_recall (records : list (list value * list value)) : Q :=
  let tp := list_sum (map record_tp records) in
  let fn := list_sum (map record_fn records) in
  match (tp + fn)%nat with
  | O => 1%Q
  | S _ => Z.of_nat tp # Pos.of_nat (tp + fn)%nat
  end.

(** Macro-averaged recall: the mean of the recalls of the records. *)
Definition record_recall (record : list value * list value) : Q :=
  match (record_tp record + record_fn record)%nat with
  | O => 1%Q
  | S _ => Z.of_nat (record_tp record)
           # Pos.of_nat (record_tp record + record_fn record)%nat
  end.

Definition macro_recall (records : list (list value * list value)) : Q :=
  (fold_right Qplus 0 (map record_recall records)
   / (Z.of_nat (List.length records) # 1))%Q.

(** The number of gold items over all aligned records. *)
Definition gold_items_total (get_gold : value -> value)
  (gold_seq pred_seq : list value) : nat :=
  list_sum (map (fun pair => List.length (_ensure_list (get_gold (fst pair))))
                (combine gold_seq pred_seq)).

(** The mapping returned when there is nothing to align. *)
Definition empty_metrics : metrics :=
  {| n_samples := 0;
     diabetes_type_accuracy := 0%Q;
     diabetes_status_accuracy := 0%Q;
     diabetes_a1c_recall := 1%Q;
     diabetes_glucose_recall := 1%Q;
     bp_hypertension_status_accuracy := 0%Q;
     bp_readings_recall := 1%Q |}.

(** The six accessors as functions of the record. *)
Definition scalar_field (keys : list pystr) : value -> value :=
  fun obj => scalar_at obj keys.

Definition list_field (keys : list pystr) : value -> value :=
  fun obj => VList (list_at obj keys).

(** The metrics of two loaded sequences: both are cut to the length of the
    shorter one, then every metric is taken over the aligned pairs. *)
Definition aligned_metrics (gold_seq pred_seq : list value) : metrics :=
  let n := Nat.min (List.length gold_seq) (List.length pred_seq) in
  let gold := firstn n gold_seq in
  let pred := firstn n pred_seq in
  let accuracy keys :=
    exact_match_accuracy gold pred (scalar_field keys) (scalar_field keys) in
  let recall keys :=
    micro_recall (aligned_lists (list_field keys) (list_field keys) gold pred) in
  match n with
  | O => empty_metrics
  | S _ =>
      {| n_samples := n;
         diabetes_type_accuracy := accuracy [u "diabetes"; u "type"];
         diabetes_status_accuracy := accuracy [u "diabetes"; u "status"];
         diabetes_a1c_recall := recall [u "diabetes"; u "a1c_values"];
         diabetes_glucose_recall := recall [u "diabetes"; u "glucose_values"];
         bp_hypertension_status_accuracy :=
           accuracy [u "blood_pressure"; u "hypertension_status"];
         bp_readings_recall := recall [u "blood_pressure"; u "bp_readings"] |}
  end.

(** The two paths [main] validates: the arguments when two or more are
    given, the fixed locations otherwise. *)
Definition chosen_paths (argv : list string) : Path * Path :=
  if Nat.leb 3 (List.length argv) then (nth 1 argv "", nth 2 argv "")
  else (GOLD_PATH, EXTRACTION_PATH).

(** A value of [[0, 1]]. *)
Definition in_unit_interval (q : Q) : Prop := (0 <= q)%Q /\ (q <= 1)%Q.

(** All six metrics lie in [[0, 1]]. *)
Definition metrics_in_range (m : metrics) : Prop :=
  in_unit_interval (diabetes_type_accuracy m) /\
  in_unit_interval (diabetes_status_accuracy m) /\
  in_unit_interval (diabetes_a1c_recall m) /\
  in_unit_interval (diabetes_glucose_recall m) /\
  in_unit_interval (bp_hypertension_status_accuracy m) /\
  in_unit_interval (bp_readings_recall m).

(** All six metrics are 1. *)
Definition metrics_perfect (m : metrics) : Prop :=
  (diabetes_type_accuracy m == 1)%Q /\
  (diabetes_status_accuracy m == 1)%Q /\
  (diabetes_a1c_recall m == 1)%Q /\
  (diabetes_glucose_recall m == 1)%Q /\
  (bp_hypertension_status_accuracy m == 1)%Q /\
  (bp_readings_recall m == 1)%Q.


(** Nothing to score at a path of a record: no value, a falsy one, or a
    string of white space. *)
Definition blank_at (obj : value) (keys : list pystr) : Prop :=
  lookup_path obj keys = None \/
  (exists v, lookup_path obj keys = Some v /\
             (py_truthy v = false \/
              exists s, v = VStr s /\ forallb isspace s = true)).

(** ** Reading the agent's answer ([src/extraction.py]) *)

(** [JSON_BLOCK_PATTERN.finditer(text)]: for every match, in order, its
    groups 1 and 2, [None] for a group that took no part in the match. *)
Variable json_block_matches : pystr -> list (option pystr * option pystr).

(** [json.loads]: the value read, or the text of the [JSONDecodeError]. *)
Variable json_loads : pystr -> value + string.

(** The loop of [_extract_raw_json] over the matches. *)
Fixpoint first_json_group (matches : list (option pystr * option pystr))
  : option pystr :=
  match matches with
  | [] => None
  | (group1, group2) :: rest =>
      match str_or group1 group2 with
      | Some (c :: g) =>
          if startswith (strip (c :: g)) (u "{") then Some (strip (c :: g))
          else first_json_group rest
      | _ => first_json_group rest
      end
  end.

(** [text] is a string or [None]. *)
Definition _extract_raw_json (text : option pystr) : pystr :=
  let text := strip (match str_or text (Some []) with
                     | Some s => s
                     | None => []
                     end) in
  if startswith text (u "{") && endswith text (u "}") then text
  else match first_json_group (json_block_matches text) with
       | Some group => group
       | None => text
       end.

(** [run_extraction] from the point where [crew.kickoff()] has returned
    [result]: [raw] is [getattr(result, "raw", None)] and [printed] is
    [str(result)].  The log records come with the outcome. *)
Definition run_extraction (raw : option pystr) (printed : pystr)
  : list extraction_log * result value :=
  let raw_output := match str_or raw (Some printed) with
                    | Some s => s
                    | None => printed
                    end in
  let json_str := _extract_raw_json (Some raw_output) in
  match json_loads json_str with
  | inr e =>
      ([LogJsonDecodeError e (last_chars 500 json_str)],
       Raise (ValueError ("Agent output is not valid JSON: " ++ e)))
  | inl obj =>
      ([], _ <- _validate_schema obj ;; Ok obj)
  end.

(** ** [str.lower] *)

(** The lowercase of the character that is not ASCII at a position of a
    string (the full mapping of one character; the string and the position
    are its context). *)
Variable lower_nonascii : pystr -> nat -> list N.

(** The loop of [str.lower] from position [i] of [whole] on. *)
Fixpoint lower_from (whole : pystr) (i : nat) (rest : pystr) : pystr :=
  match rest with
  | [] => []
  | c :: rest' =>
      (if (c <? 128)%N then [ascii_lower c] else lower_nonascii whole i)
        ++ lower_from whole (S i) rest'
  end.

(** [s.lower()] *)
Definition py_lower (s : pystr) : pystr := lower_from s 0 s.

(** ** The keyword filter ([src/data_filter.py]) *)

Definition INPUT_PATH : Path := (PROJECT_ROOT ++ "/data/discharge.csv.gz")%string.

Definition OUTPUT_PATH : Path :=
  (PROJECT_ROOT ++ "/data/filtered_discharge_notes.csv")%string.

Definition _text_matches (row_text : cell) : bool :=
  if pd_isna row_text then false
  else
    let lower := py_lower (py_str (cell_value row_text)) in
    existsb (fun kw => is_substring kw lower) KEYWORDS.

(** One iteration of the loop of [run_filter]: the new state, or the error
    raised with the state left behind. *)
Definition filter_chunk (st : filter_state) (chunk : frame)
  : filter_state + filter_error * filter_state :=
  let chunk_number := chunk_number st + 1 in
  match _ensure_text_column chunk with
  | Some e =>
      inr (e, {| total_scanned := total_scanned st;
                 total_matched := total_matched st;
                 chunk_number := chunk_number;
                 write_header := write_header st;
                 output_file := output_file st;
                 filter_logged := filter_logged st |})
  | None =>
      let scanned := List.length (rows chunk) in
      let total_scanned := total_scanned st + scanned in
      let matched_chunk :=
        filter (fun row => _text_matches (row_item (columns chunk) row (u "text")))
               (rows chunk) in
      let matched_count := List.length matched_chunk in
      let total_matched := total_matched st + matched_count in
      let logged :=
        filter_logged st
        ++ [LogChunk chunk_number scanned matched_count
              total_scanned total_matched] in
      if Nat.ltb 0 matched_count then
        inl {| total_scanned := total_scanned;
               total_matched := total_matched;
               chunk_number := chunk_number;
               write_header := false;
               output_file := to_csv (columns chunk) matched_chunk
                                (write_header st) (output_file st);
               filter_logged := logged |}
      else
        inl {| total_scanned := total_scanned;
               total_matched := total_matched;
               chunk_number := chunk_number;
               write_header := write_header st;
               output_file := output_file st;
               filter_logged := logged |}
  end.

(** The loop of [run_filter] over the chunks [pd.read_csv] yields. *)
Fixpoint filter_chunks (chunks : list frame) (st : filter_state)
  : filter_state + filter_error * filter_state :=
  match chunks with
  | [] => inl st
  | chunk :: rest =>
      match filter_chunk st chunk with
      | inl st' => filter_chunks rest st'
      | inr failure => inr failure
      end
  end.

(** [run_filter]: [input] is what [pd.read_csv] yields chunk by chunk, or
    [None] when the input file does not exist; [existing] is the output file
    found before the run.  The result is the output file and the log after
    the run, with the error raised, if any.  The creation of the output
    directory is left out. *)
Definition run_filter (input : option (list frame)) (existing : option csv_file)
  : option csv_file * list filter_log * option filter_error :=
  match input with
  | None => (existing, [], Some (InputFileNotFound INPUT_PATH))
  | Some chunks =>
      let st := {| total_scanned := 0;
                   total_matched := 0;
                   chunk_number := 0;
                   write_header := true;
                   output_file := existing;
                   filter_logged := [LogStarting INPUT_PATH] |} in
      match filter_chunks chunks st with
      | inl st' =>
          (output_file st',
           filter_logged st'
           ++ [LogFinished (total_scanned st') (total_matched st') OUTPUT_PATH],
           None)
      | inr (e, st') => (output_file st', filter_logged st', Some e)
      end
  end.

(** ** The extraction run ([src/main.py]) *)

(** [RETRY_AFTER_PATTERN.search(err_str)] and the number its group reads
    as, when there is a match. *)
Variable retry_after : pystr -> option Q.

(** The outcome of the call of [run_extraction] that follows [calls]
    earlier ones, for a patient and a note. *)
Variable extraction : nat -> pystr -> pystr -> attempt.

(** The loop of [_get_patient_id] over the candidate columns. *)
Fixpoint patient_id_from (names : list pystr) (row : list cell)
  (candidates : list pystr) : option pystr :=
  match candidates with
  | [] => None
  | col :: rest =>
      if has_column names col
         && negb (match row_get names row col with
                  | Some c => pd_isna c
                  | None => true
                  end)
      then Some (strip (py_str (cell_value (row_item names row col))))
      else patient_id_from names row rest
  end.

Definition _get_patient_id (names : list pystr) (row : list cell) (index : nat)
  : pystr :=
  match patient_id_from names row PATIENT_ID_COLUMNS with
  | Some patient_id => patient_id
  | None => int_decimal (Z.of_nat index)
  end.

(** [[ "429" in err_str or "RESOURCE_EXHAUSTED" in err_str
        or "quota" in err_str.lower() ]] *)
Definition is_429 (err_str : pystr) : bool :=
  is_substring (u "429") err_str
  || is_substring (u "RESOURCE_EXHAUSTED") err_str
  || is_substring (u "quota") (py_lower err_str).

(** [[ min(float(match.group(1)) if match else DEFAULT_429_WAIT_SEC, 120) ]] *)
Definition wait_seconds (err_str : pystr) : Q :=
  let wait_sec := match retry_after err_str with
                  | Some seconds => seconds
                  | None => DEFAULT_429_WAIT_SEC
                  end in
  if Qle_bool wait_sec 120 then wait_sec else 120%Q.

Definition add_result (st : run_state) (record : value) (entry : main_log)
  : run_state :=
  {| results := results st ++ [record];
     calls := calls st;
     sleeps := sleeps st;
     main_logged := main_logged st ++ [entry] |}.

Definition count_call (st : run_state) : run_state :=
  {| results := results st;
     calls := calls st + 1;
     sleeps := sleeps st;
     main_logged := main_logged st |}.

(** The [for attempt in range(MAX_429_RETRIES + 1)] loop with its [else]
    clause, over the attempts still to make. *)
Fixpoint attempts_loop (patient_id note_text : pystr) (attempts : list nat)
  (last_error : option pystr) (st : run_state) : run_state :=
  match attempts with
  | [] =>
      match last_error with
      | Some err =>
          add_result st (error_record patient_id err)
            (LogFailedAfterRetries patient_id err)
      | None => st
      end
  | attempt :: rest =>
      let outcome := extraction (calls st) patient_id note_text in
      let st := count_call st in
      match outcome with
      | Returns out => add_result st out (LogExtractionOk patient_id)
      | RaisesValueError err =>
          add_result st (error_record patient_id err)
            (LogExtractionFailed patient_id err)
      | RaisesOther err_str =>
          if is_429 err_str && Nat.ltb attempt MAX_429_RETRIES then
            let wait_sec := wait_seconds err_str in
            attempts_loop patient_id note_text rest (Some err_str)
              {| results := results st;
                 calls := calls st;
                 sleeps := sleeps st ++ [wait_sec];
                 main_logged :=
                   main_logged st
                   ++ [LogQuotaWait wait_sec (attempt + 1) patient_id] |}
          else
            add_result st (error_record patient_id err_str)
              (LogExtractionFailed patient_id err_str)
      end
  end.

(** [[ pd.isna(note_text) or not str(note_text).strip() ]] *)
Definition note_is_empty (note_text : cell) : bool :=
  pd_isna note_text
  || match strip (py_str (cell_value note_text)) with
     | [] => true
     | _ => false
     end.

(** The body of the loop over [df.iterrows()], for the row at [idx]. *)
Definition extract_row (names : list pystr) (st : run_state)
  (indexed : nat * list cell) : run_state :=
  let (idx, row) := indexed in
  let patient_id := _get_patient_id names row idx in
  let note_text := row_item names row TEXT_COLUMN in
  if note_is_empty note_text then
    {| results := results st;
       calls := calls st;
       sleeps := sleeps st;
       main_logged := main_logged st ++ [LogEmptyNote idx] |}
  else
    attempts_loop patient_id (py_str (cell_value note_text))
      (seq 0 (MAX_429_RETRIES + 1)) None st.

(** [main] of [src/main.py]: [api_key] is the key of the environment,
    [notes] the table in the filtered notes file, or [None] when the file
    does not exist.  The result is the state after the run, whose [results]
    are written to [extraction_results.json], or the error raised. *)
Definition extract_main (api_key : option pystr) (notes : option frame)
  : run_state + main_error :=
  match validate_settings api_key with
  | Some e => inr e
  | None =>
      match notes with
      | None => inr NotesFileNotFound
      | Some table =>
          let df := {| columns := columns table;
                       rows := firstn MAX_ROWS (rows table) |} in
          if negb (has_column (columns df) TEXT_COLUMN)
          then inr (NotesTextColumnMissing (columns df))
          else
            let st := fold_left (extract_row (columns df))
                        (combine (seq 0 (List.length (rows df))) (rows df))
                        {| results := []; calls := 0; sleeps := [];
                           main_logged := [] |} in
            inl {| results := results st;
                   calls := calls st;
                   sleeps := sleeps st;
                   main_logged :=
                     main_logged st ++ [LogWrote (List.length (results st))] |}
      end
  end.

(** The rows of a table whose text holds a keyword. *)
Definition row_matches (names : list pystr) (row : list cell) : bool :=
  _text_matches (row_item names row (u "text")).

(** A string of ASCII characters. *)
Definition is_ascii (s : pystr) : bool := forallb (fun c => (c <? 128)%N) s.

(** The notes of a table that [main] of [src/main.py] sends to the agent:
    those of the first [MAX_ROWS] rows that are not empty. *)
Definition notes_to_extract (table : frame) : list (list cell) :=
  filter (fun row => negb (note_is_empty (row_item (columns table) row TEXT_COLUMN)))
         (firstn MAX_ROWS (rows table)).

(** What the loop of [run_filter] keeps true, [seen] being the rows read
    so far: the counters count them and the matching ones, the header is
    still to be written as long as none matched, and the output file is the
    one found before the run until then, the matching rows afterwards. *)
Definition filter_invariant (names : list pystr) (existing : option csv_file)
  (seen : list (list cell)) (st : filter_state) : Prop :=
  total_scanned st = List.length seen /\
  total_matched st = List.length (filter (row_matches names) seen) /\
  write_header st = match filter (row_matches names) seen with
                    | [] => true
                    | _ => false
                    end /\
  output_file st = match filter (row_matches names) seen with
                   | [] => existing
                   | matched => Some {| csv_header := names; csv_rows := matched |}
                   end.

(** What the loop over the notes keeps true of its state: every call of
    [run_extraction] either ended the attempts for a note, with a result, or
    was followed by a wait; a note is waited for at most [MAX_429_RETRIES]
    times, and no wait is longer than 120 seconds. *)
Definition run_invariant (st : run_state) : Prop :=
  calls st = List.length (sleeps st) + List.length (results st) /\
  List.length (sleeps st) <= MAX_429_RETRIES * List.length (results st) /\
  Forall (fun wait_sec => (wait_sec <= 120)%Q) (sleeps st).

(** Every record the agent run hands back passes the schema. *)
Definition extraction_validated : Prop :=
  forall k patient_id note_text out,
    extraction k patient_id note_text = Returns out -> schema_valid out = true.

(** The error a validation run stops at, if any: that of loading the gold
    file, else that of loading the prediction file. *)
Definition load_failure (fs : filesystem) (gold_path extraction_path : Path)
  : option exn :=
  match _load_json fs gold_path with
  | Raise e => Some e
  | Ok _ =>
      match _load_json fs extraction_path with
      | Raise e => Some e
      | Ok _ => None
      end
  end.

(** The six metrics of [m] are what the two metric functions compute, with
    the accessors of the run, over the sequences [gold] and [pred]. *)
Definition metrics_over (gold pred : list value) (m : metrics) : Prop :=
  compute_exact_match_accuracy gold pred get_diabetes_type get_diabetes_type
  = Ok (diabetes_type_accuracy m) /\
  compute_exact_match_accuracy gold pred get_diabetes_status get_diabetes_status
  = Ok (diabetes_status_accuracy m) /\
  compute_list_recall gold pred get_diabetes_a1c get_diabetes_a1c
  = Ok (diabetes_a1c_recall m) /\
  compute_list_recall gold pred get_diabetes_glucose get_diabetes_glucose
  = Ok (diabetes_glucose_recall m) /\
  compute_exact_match_accuracy gold pred get_bp_status get_bp_status
  = Ok (bp_hypertension_status_accuracy m) /\
  compute_list_recall gold pred get_bp_readings get_bp_readings
  = Ok (bp_readings_recall m).

(** ** Lemmas on strings and on the error monad *)

Lemma pystr_eqb_eq (a b : pystr) : pystr_eqb a b = true <-> a = b.
Proof.
  revert b; induction a as [|x a IH]; intros [|y b]; simpl;
    try (split; [discriminate | congruence]); try tauto.
  rewrite andb_true_iff, N.eqb_eq, IH. split.
  - intros [-> ->]; reflexivity.
  - intros H; injection H; auto.
Qed.

Lemma pystr_eqb_dec (a b : pystr) :
  pystr_eqb a b = if pystr_eq_dec a b then true else false.
Proof.
  destruct (pystr_eq_dec a b) as [E|E].
  - apply pystr_eqb_eq; exact E.
  - destruct (pystr_eqb a b) eqn:H; [|reflexivity].
    apply pystr_eqb_eq in H; contradiction.
Qed.

Lemma for_each_ext {A S : Type} (f g : S -> A -> result S) (xs : list A) (acc : S) :
  (forall s x, In x xs -> f s x = g s x) ->
  for_each f xs acc = for_each g xs acc.
Proof.
  revert acc; induction xs as [|x xs IH]; intros acc H; simpl; auto.
  rewrite (H acc x (or_introl eq_refl)).
  destruct (g acc x); simpl; auto.
  apply IH; intros; apply H; right; assumption.
Qed.

(** ** The field accessor *)

Lemma _get_nested_from_spec (default_list obj : value) (keys : list pystr) :
  _get_nested_from default_list obj keys =
  Ok (let want_list := negb (is_none default_list) in
      match lookup_path obj keys with
      | None => typed_default want_list
      | Some v =>
          if want_list && negb (is_list v) then VList []
          else if is_none v then typed_default want_list else v
      end).
Proof.
  revert obj; induction keys as [|key rest IH]; intros obj.
  - simpl. destruct (negb (is_none default_list)); simpl.
    + destruct (is_list obj); simpl; [destruct obj; reflexivity | reflexivity].
    + destruct obj; reflexivity.
  - simpl. destruct obj as [ | b | z | f | s | xs | kvs]; simpl;
      try (destruct (is_none default_list); reflexivity).
    destruct (dict_get kvs key) as [v|] eqn:E; simpl.
    + apply IH.
    + destruct (is_none default_list); reflexivity.
Qed.

Lemma scalar_accessor_spec (obj : value) (keys : list pystr) :
  (v <- _get_nested obj keys VNone ;; Ok (py_or v (VStr [])))
  = Ok (scalar_at obj keys).
Proof.
  unfold _get_nested, scalar_at. rewrite _get_nested_from_spec. simpl.
  destruct (lookup_path obj keys) as [v|]; [|reflexivity].
  destruct v as [ | b | z | f | s | xs | kvs]; try reflexivity.
Qed.

Lemma list_accessor_spec (obj : value) (keys : list pystr) :
  (v <- _get_nested obj keys (VList []) ;; Ok (VList (_ensure_list v)))
  = Ok (VList (list_at obj keys)).
Proof.
  unfold _get_nested, list_at. rewrite _get_nested_from_spec. simpl.
  destruct (lookup_path obj keys) as [v|]; [|reflexivity].
  destruct v; reflexivity.
Qed.

(** C4: for every record, path and want-list setting, [_get_nested] raises
    nothing; it returns the typed default (empty string, or empty sequence
    when a list is wanted) whenever a value on the path is not a mapping or a
    key is absent, and the empty sequence when a list is wanted and the value
    found is not a list. *)
Theorem get_nested_defaults_no_raise
  (obj : value) (keys : list pystr) (default_list : value) :
  (exists v, _get_nested obj keys default_list = Ok v) /\
  (lookup_path obj keys = None ->
   _get_nested obj keys default_list
   = Ok (typed_default (negb (is_none default_list)))) /\
  (forall found, lookup_path obj keys = Some found ->
   is_none default_list = false -> is_list found = false ->
   _get_nested obj keys default_list = Ok (VList [])).
Proof.
  unfold _get_nested. rewrite _get_nested_from_spec. repeat split.
  - eexists; reflexivity.
  - intros ->. reflexivity.
  - intros found -> -> ->. reflexivity.
Qed.

(** C5, as amended: on a record of any shape no accessor of the validation
    run raises.  A scalar accessor returns the value at its path when that
    value is truthy and the empty string otherwise, hence a string whenever
    the value found is absent, falsy or a string.  A list accessor returns
    the list at its path, or the empty list, hence a sequence of strings
    whenever the list found holds only strings. *)
Theorem accessors_total (obj : value) :
  (get_diabetes_type obj = Ok (scalar_at obj [u "diabetes"; u "type"]) /\
   get_diabetes_status obj = Ok (scalar_at obj [u "diabetes"; u "status"]) /\
   get_bp_status obj
   = Ok (scalar_at obj [u "blood_pressure"; u "hypertension_status"]) /\
   get_diabetes_a1c obj
   = Ok (VList (list_at obj [u "diabetes"; u "a1c_values"])) /\
   get_diabetes_glucose obj
   = Ok (VList (list_at obj [u "diabetes"; u "glucose_values"])) /\
   get_bp_readings obj
   = Ok (VList (list_at obj [u "blood_pressure"; u "bp_readings"]))) /\
  (forall keys,
     (forall v, lookup_path obj keys = Some v -> py_truthy v = true ->
                is_str v = true) ->
     is_str (scalar_at obj keys) = true) /\
  (forall keys,
     (forall items, lookup_path obj keys = Some (VList items) ->
                    forallb is_str items = true) ->
     str_or_str_list (VList (list_at obj keys)) = true).
Proof.
  split; [|split].
  - repeat split; first [apply scalar_accessor_spec | apply list_accessor_spec].
  - intros keys H. unfold scalar_at.
    destruct (lookup_path obj keys) as [v|]; [|reflexivity].
    destruct (py_truthy v) eqn:T; [|reflexivity].
    apply H; auto.
  - intros keys H. unfold list_at. simpl.
    destruct (lookup_path obj keys) as [v|]; [|reflexivity].
    destruct v; try reflexivity. apply H; reflexivity.
Qed.

(** ** Exact-match accuracy *)

Lemma scalar_str_normalized (v : value) : scalar_str v = normalized v.
Proof.
  destruct v as [ | b | z | f | s | xs | kvs]; try reflexivity.
  destruct s; reflexivity.
Qed.

Lemma exact_match_loop (get_gold get_pred : value -> value)
  (pairs : list (value * value)) (correct : nat) :
  for_each (exact_match_body (returns get_gold) (returns get_pred)) pairs correct
  = Ok (correct + correct_pairs get_gold get_pred pairs).
Proof.
  revert correct; induction pairs as [|[gold pred] pairs IH]; intros correct.
  - simpl. f_equal. unfold correct_pairs. simpl. lia.
  - simpl. rewrite !scalar_str_normalized, pystr_eqb_dec, IH.
    unfold correct_pairs, pair_correct. simpl.
    destruct (pystr_eq_dec _ _); simpl; f_equal; lia.
Qed.

Lemma correct_pairs_le (get_gold get_pred : value -> value)
  (pairs : list (value * value)) :
  correct_pairs get_gold get_pred pairs <= List.length pairs.
Proof. apply filter_length_le. Qed.

Lemma accuracy_value (get_gold get_pred : value -> value)
  (gold_list pred_list : list value) :
  gold_list <> [] ->
  compute_exact_match_accuracy gold_list pred_list
    (returns get_gold) (returns get_pred)
  = Ok (Z.of_nat (correct_pairs get_gold get_pred (combine gold_list pred_list))
        # Pos.of_nat (List.length gold_list)).
Proof.
  intros Hne. unfold compute_exact_match_accuracy.
  destruct gold_list as [|g gs]; [contradiction|].
  cbn [List.length Nat.eqb]. rewrite exact_match_loop.
  reflexivity.
Qed.

Lemma accuracy_equal_length
  (gold_list pred_list : list value) (get_gold get_pred : value -> value) :
  List.length gold_list = List.length pred_list ->
  compute_exact_match_accuracy gold_list pred_list
    (returns get_gold) (returns get_pred)
  = Ok (exact_match_accuracy gold_list pred_list get_gold get_pred).
Proof.
  intros Hlen. destruct gold_list as [|g gs].
  - reflexivity.
  - rewrite accuracy_value by discriminate.
    destruct pred_list as [|p ps]; [discriminate|].
    unfold exact_match_accuracy.
    cbn [combine List.length] in *. rewrite length_combine.
    injection Hlen as Hlen. rewrite <- Hlen, Nat.min_id. reflexivity.
Qed.

(** C1: on sequences of equal length, [compute_exact_match_accuracy] is the
    exact-match accuracy of the specification: [0.0] on empty sequences,
    otherwise the number of pairs whose normalised getter values are equal
    strings, divided by the number of pairs. *)
Theorem exact_match_accuracy_refines
  (gold_list pred_list : list value) (get_gold get_pred : value -> value) :
  List.length gold_list = List.length pred_list ->
  compute_exact_match_accuracy gold_list pred_list
    (returns get_gold) (returns get_pred)
  = Ok (exact_match_accuracy gold_list pred_list get_gold get_pred).
Proof.
  intros Hlen. unfold exact_match_accuracy.
  destruct gold_list as [|g gs], pred_list as [|p ps]; try discriminate.
  - reflexivity.
  - rewrite accuracy_value by discriminate.
    assert (Hpairs : List.length (combine (g :: gs) (p :: ps))
                     = List.length (g :: gs))
      by (rewrite length_combine, <- Hlen; apply Nat.min_id).
    cbn [combine] in *. rewrite Hpairs. reflexivity.
Qed.

(** C9: called with a non-empty gold sequence, [compute_exact_match_accuracy]
    divides by the length of the gold sequence although [zip] compares only
    the first [min(len(gold), len(pred))] pairs, so gold records beyond the
    predictions never count as correct; with no prediction at all the result
    is [0.0]. *)
Theorem accuracy_counts_unpaired_gold_as_incorrect
  (gold_list pred_list : list value) (get_gold get_pred : value -> value) :
  gold_list <> [] ->
  compute_exact_match_accuracy gold_list pred_list
    (returns get_gold) (returns get_pred)
  = Ok (Z.of_nat (correct_pairs get_gold get_pred (combine gold_list pred_list))
        # Pos.of_nat (List.length gold_list)) /\
  List.length (combine gold_list pred_list)
  = Nat.min (List.length gold_list) (List.length pred_list) /\
  correct_pairs get_gold get_pred (combine gold_list pred_list)
  <= Nat.min (List.length gold_list) (List.length pred_list) /\
  (pred_list = [] ->
   exists q, compute_exact_match_accuracy gold_list pred_list
               (returns get_gold) (returns get_pred) = Ok q /\ (q == 0)%Q).
Proof.
  intros Hne. repeat split.
  - apply accuracy_value; assumption.
  - apply length_combine.
  - rewrite <- length_combine. apply correct_pairs_le.
  - intros ->. rewrite accuracy_value by assumption.
    eexists; split; [reflexivity|].
    destruct gold_list; reflexivity.
Qed.

(** ** List recall *)

(** Closes an equation between two pairs of counters, bare or under [Ok]. *)
Ltac counters :=
  lazymatch goal with
  | |- Ok _ = Ok _ => apply f_equal; counters
  | |- (_, _) = (_, _) => apply f_equal2; lia
  end.

Lemma membership_item_found (p_items : list value) (g_item : value) :
  existsb (pystr_eqb (strip (py_str g_item)))
          (map (fun x => strip (py_str x)) p_items)
  = item_found p_items g_item.
Proof.
  unfold item_found. induction p_items as [|x xs IH]; simpl; [reflexivity|].
  rewrite IH, pystr_eqb_dec.
  destruct (pystr_eq_dec (strip (py_str g_item)) (strip (py_str x)));
    destruct (pystr_eq_dec (strip (py_str x)) (strip (py_str g_item)));
    congruence.
Qed.

Lemma recall_inner_loop (p_items g_items : list value) (tp fn : nat) :
  fold_left (recall_item_body p_items) g_items (tp, fn)
  = (tp + record_tp (g_items, p_items), fn + record_fn (g_items, p_items)).
Proof.
  revert tp fn; induction g_items as [|g gs IH]; intros tp fn.
  - unfold record_tp, record_fn. simpl. counters.
  - simpl. rewrite membership_item_found.
    unfold record_tp, record_fn in *. simpl in *.
    destruct (item_found p_items g); simpl; rewrite IH; counters.
Qed.

Lemma recall_outer_loop (get_gold get_pred : value -> value)
  (gold_list pred_list : list value) (tp fn : nat) :
  for_each (recall_record_body (returns get_gold) (returns get_pred))
    (combine gold_list pred_list) (tp, fn)
  = Ok (tp + list_sum (map record_tp
                         (aligned_lists get_gold get_pred gold_list pred_list)),
        fn + list_sum (map record_fn
                         (aligned_lists get_gold get_pred gold_list pred_list))).
Proof.
  unfold aligned_lists.
  revert tp fn; induction (combine gold_list pred_list) as [|[gold pred] pairs IH];
    intros tp fn.
  - simpl. counters.
  - simpl. rewrite recall_inner_loop, IH. simpl. counters.
Qed.

Lemma list_recall_value (get_gold get_pred : value -> value)
  (gold_list pred_list : list value) :
  compute_list_recall gold_list pred_list (returns get_gold) (returns get_pred)
  = Ok (micro_recall (aligned_lists get_gold get_pred gold_list pred_list)).
Proof.
  unfold compute_list_recall, micro_recall.
  rewrite recall_outer_loop. simpl.
  destruct (list_sum _ + list_sum _); reflexivity.
Qed.

Lemma record_tp_fn (record : list value * list value) :
  record_tp record + record_fn record = List.length (fst record).
Proof.
  unfold record_tp, record_fn. destruct record as [g_items p_items]. simpl.
  induction g_items as [|g gs IH]; simpl; [reflexivity|].
  destruct (item_found p_items g); simpl; lia.
Qed.

Lemma relevant_total (get_gold get_pred : value -> value)
  (gold_list pred_list : list value) :
  list_sum (map record_tp (aligned_lists get_gold get_pred gold_list pred_list))
  + list_sum (map record_fn (aligned_lists get_gold get_pred gold_list pred_list))
  = gold_items_total get_gold gold_list pred_list.
Proof.
  unfold aligned_lists, gold_items_total.
  induction (combine gold_list pred_list) as [|pair pairs IH]; simpl; [reflexivity|].
  rewrite <- IH.
  pose proof (record_tp_fn (_ensure_list (get_gold (fst pair)),
                            _ensure_list (get_pred (snd pair)))) as H.
  simpl in H. lia.
Qed.

Lemma item_found_permutation (p_items p_items' : list value) (g_item : value) :
  Permutation p_items p_items' ->
  item_found p_items g_item = item_found p_items' g_item.
Proof.
  unfold item_found.
  induction 1 as [ | x l l' _ IH | x y l | l l' l'' _ IH1 _ IH2]; simpl.
  - reflexivity.
  - rewrite IH; reflexivity.
  - rewrite !orb_assoc. f_equal. apply orb_comm.
  - congruence.
Qed.

Lemma record_counts_permutation (g_items p_items p_items' : list value) :
  Permutation p_items p_items' ->
  record_tp (g_items, p_items) = record_tp (g_items, p_items') /\
  record_fn (g_items, p_items) = record_fn (g_items, p_items').
Proof.
  intros HP. unfold record_tp, record_fn. simpl.
  split; f_equal; apply filter_ext; intros g;
    rewrite (item_found_permutation _ _ g HP); reflexivity.
Qed.

(** C2: [compute_list_recall] is micro-averaged: true positives and false
    negatives are summed over all aligned records before the division.  For
    gold [[a, b]] with prediction [[a]] and gold [[c]] with prediction [[c]]
    it returns 2/3, where the mean of the per-record recalls is 0.75. *)
Theorem list_recall_micro_averaged :
  (forall gold_list pred_list get_gold get_pred,
     compute_list_recall gold_list pred_list
       (returns get_gold) (returns get_pred)
     = Ok (micro_recall (aligned_lists get_gold get_pred gold_list pred_list))) /\
  (forall get_gold get_pred g1 g2 p1 p2 a b c,
     get_gold g1 = VList [a; b] -> get_pred p1 = VList [a] ->
     get_gold g2 = VList [c] -> get_pred p2 = VList [c] ->
     strip (py_str a) <> strip (py_str b) ->
     compute_list_recall [g1; g2] [p1; p2] (returns get_gold) (returns get_pred)
     = Ok (2 # 3) /\
     (macro_recall (aligned_lists get_gold get_pred [g1; g2] [p1; p2]) == 3 # 4)%Q /\
     ~ (2 # 3 == 3 # 4)%Q).
Proof.
  split.
  - intros; apply list_recall_value.
  - intros get_gold get_pred g1 g2 p1 p2 a b c Hg1 Hp1 Hg2 Hp2 Hab.
    assert (Hrec : aligned_lists get_gold get_pred [g1; g2] [p1; p2]
                   = [([a; b], [a]); ([c], [c])]).
    { unfold aligned_lists. simpl. rewrite Hg1, Hp1, Hg2, Hp2. reflexivity. }
    assert (Hself : forall x, item_found [x] x = true).
    { intros x. unfold item_found. simpl.
      destruct (pystr_eq_dec _ _); [reflexivity | contradiction]. }
    assert (Hb : item_found [a] b = false).
    { unfold item_found. simpl.
      destruct (pystr_eq_dec _ _); [contradiction | reflexivity]. }
    assert (Htp1 : record_tp ([a; b], [a]) = 1 /\ record_fn ([a; b], [a]) = 1).
    { unfold record_tp, record_fn. cbn [fst snd filter].
      rewrite Hself, Hb. split; reflexivity. }
    assert (Htp2 : record_tp ([c], [c]) = 1 /\ record_fn ([c], [c]) = 0).
    { unfold record_tp, record_fn. cbn [fst snd filter].
      rewrite Hself. split; reflexivity. }
    destruct Htp1 as [T1 F1], Htp2 as [T2 F2].
    rewrite list_recall_value, Hrec. repeat split.
    + unfold micro_recall. cbn [map list_sum fold_right].
      rewrite T1, F1, T2, F2. reflexivity.
    + unfold macro_recall, record_recall. cbn [map fold_right List.length].
      rewrite T1, F1, T2, F2. reflexivity.
    + discriminate.
Qed.

(** C3: when the aligned gold records hold no list item at all, in
    particular when every gold list is empty or missing,
    [compute_list_recall] returns exactly [1.0], whatever is predicted. *)
Theorem list_recall_no_gold_items
  (gold_list pred_list : list value) (get_gold get_pred : value -> value) :
  gold_items_total get_gold gold_list pred_list = 0 ->
  compute_list_recall gold_list pred_list (returns get_gold) (returns get_pred)
  = Ok 1%Q.
Proof.
  intros H. rewrite list_recall_value. unfold micro_recall.
  rewrite relevant_total, H. reflexivity.
Qed.

(** C8: permuting the items of any record's predicted list leaves
    [compute_list_recall] unchanged. *)
Theorem list_recall_permutation_invariant
  (gold_list pred_list pred_list' : list value)
  (get_gold get_pred : value -> value) :
  Forall2 (fun pred pred' =>
             Permutation (_ensure_list (get_pred pred))
                         (_ensure_list (get_pred pred')))
          pred_list pred_list' ->
  compute_list_recall gold_list pred_list (returns get_gold) (returns get_pred)
  = compute_list_recall gold_list pred_list' (returns get_gold) (returns get_pred).
Proof.
  intros HP. rewrite !list_recall_value. unfold micro_recall.
  assert (E : map record_tp (aligned_lists get_gold get_pred gold_list pred_list)
              = map record_tp (aligned_lists get_gold get_pred gold_list pred_list')
              /\ map record_fn (aligned_lists get_gold get_pred gold_list pred_list)
              = map record_fn (aligned_lists get_gold get_pred gold_list pred_list')).
  { unfold aligned_lists. revert gold_list.
    induction HP as [|p p' ps ps' Hp _ IH]; intros gold_list.
    - destruct gold_list; split; reflexivity.
    - destruct gold_list as [|g gs]; [split; reflexivity|].
      destruct (IH gs) as [IHt IHf].
      destruct (record_counts_permutation (_ensure_list (get_gold g)) _ _ Hp)
        as [Et Ef].
      simpl. rewrite IHt, IHf, Et, Ef. split; reflexivity. }
  destruct E as [-> ->]. reflexivity.
Qed.

(** ** The validation run *)

Lemma accuracy_getters (gold_list pred_list : list value)
  (getter_gold getter_pred : value -> result value)
  (get_gold get_pred : value -> value) :
  (forall record, getter_gold record = Ok (get_gold record)) ->
  (forall record, getter_pred record = Ok (get_pred record)) ->
  compute_exact_match_accuracy gold_list pred_list getter_gold getter_pred
  = compute_exact_match_accuracy gold_list pred_list
      (returns get_gold) (returns get_pred).
Proof.
  intros Hg Hp. unfold compute_exact_match_accuracy.
  rewrite (for_each_ext (exact_match_body getter_gold getter_pred)
             (exact_match_body (returns get_gold) (returns get_pred)));
    [reflexivity|].
  intros correct [gold pred] _. unfold exact_match_body, returns.
  rewrite Hg, Hp. reflexivity.
Qed.

Lemma recall_getters (gold_list pred_list : list value)
  (getter_gold getter_pred : value -> result value)
  (get_gold get_pred : value -> value) :
  (forall record, getter_gold record = Ok (get_gold record)) ->
  (forall record, getter_pred record = Ok (get_pred record)) ->
  compute_list_recall gold_list pred_list getter_gold getter_pred
  = compute_list_recall gold_list pred_list
      (returns get_gold) (returns get_pred).
Proof.
  intros Hg Hp. unfold compute_list_recall.
  rewrite (for_each_ext (recall_record_body getter_gold getter_pred)
             (recall_record_body (returns get_gold) (returns get_pred)));
    [reflexivity|].
  intros totals [gold pred] _. unfold recall_record_body, returns.
  rewrite Hg, Hp. reflexivity.
Qed.

Lemma scalar_accessor_accuracy (getter : value -> result value)
  (keys : list pystr) (gold pred : list value) :
  (forall obj, getter obj = Ok (scalar_at obj keys)) ->
  List.length gold = List.length pred ->
  compute_exact_match_accuracy gold pred getter getter
  = Ok (exact_match_accuracy gold pred (scalar_field keys) (scalar_field keys)).
Proof.
  intros H Hlen.
  rewrite (accuracy_getters gold pred getter getter
             (scalar_field keys) (scalar_field keys) H H).
  apply accuracy_equal_length; assumption.
Qed.

Lemma list_accessor_recall (getter : value -> result value)
  (keys : list pystr) (gold pred : list value) :
  (forall obj, getter obj = Ok (VList (list_at obj keys))) ->
  compute_list_recall gold pred getter getter
  = Ok (micro_recall
          (aligned_lists (list_field keys) (list_field keys) gold pred)).
Proof.
  intros H.
  rewrite (recall_getters gold pred getter getter
             (list_field keys) (list_field keys) H H).
  apply list_recall_value.
Qed.

Lemma load_json_cases (fs : filesystem) (path : Path) :
  (fs path = Missing /\
   _load_json fs path = Raise (FileNotFoundError ("Missing file: " ++ path)))
  \/ (exists msg, fs path = Unreadable msg /\
                  _load_json fs path = Raise (OSError msg))
  \/ (exists msg, fs path = Unparsable msg /\
                  _load_json fs path = Raise (JSONDecodeError msg))
  \/ (exists data, fs path = Json data /\ is_list data = false /\
                   _load_json fs path
                   = Raise (ValueError ("Expected a JSON list in " ++ path
                                          ++ ", got " ++ type_name data)))
  \/ (exists records, fs path = Json (VList records) /\
                      _load_json fs path = Ok records).
Proof.
  unfold _load_json, path_exists, json_load.
  destruct (fs path) as [ | msg | msg | data]; simpl.
  - left; auto.
  - right; left; eauto.
  - right; right; left; eauto.
  - destruct data; simpl;
      try (right; right; right; left; eexists; repeat split; reflexivity).
    right; right; right; right; eauto.
Qed.

Lemma load_json_list (fs : filesystem) (path : Path) (records : list value) :
  fs path = Json (VList records) -> _load_json fs path = Ok records.
Proof.
  intros H. unfold _load_json, path_exists, json_load. rewrite H. reflexivity.
Qed.

Lemma slices_same_length (n : nat) (gold_list pred_list : list value) :
  n = Nat.min (List.length gold_list) (List.length pred_list) ->
  List.length (firstn n gold_list) = n /\ List.length (firstn n pred_list) = n.
Proof. intros ->. rewrite !length_firstn. lia. Qed.

Lemma run_validation_value (fs : filesystem) (gold_path extraction_path : Path)
  (gold_list pred_list : list value) :
  fs gold_path = Json (VList gold_list) ->
  fs extraction_path = Json (VList pred_list) ->
  run_validation fs gold_path extraction_path
  = Ok (aligned_metrics gold_list pred_list).
Proof.
  intros Hg Hp. unfold run_validation, aligned_metrics.
  rewrite (load_json_list _ _ _ Hg), (load_json_list _ _ _ Hp).
  cbn [bind].
  destruct (slices_same_length _ gold_list pred_list eq_refl) as [Lg Lp].
  remember (Nat.min (List.length gold_list) (List.length pred_list)) as n.
  destruct n as [|n]; [reflexivity|].
  cbn [Nat.eqb].
  assert (Hlen : List.length (firstn (S n) gold_list)
                 = List.length (firstn (S n) pred_list)) by congruence.
  rewrite (scalar_accessor_accuracy get_diabetes_type _ _ _
             (fun obj => scalar_accessor_spec obj _) Hlen).
  rewrite (scalar_accessor_accuracy get_diabetes_status _ _ _
             (fun obj => scalar_accessor_spec obj _) Hlen).
  rewrite (scalar_accessor_accuracy get_bp_status _ _ _
             (fun obj => scalar_accessor_spec obj _) Hlen).
  rewrite (list_accessor_recall get_diabetes_a1c _ _ _
             (fun obj => list_accessor_spec obj _)).
  rewrite (list_accessor_recall get_diabetes_glucose _ _ _
             (fun obj => list_accessor_spec obj _)).
  rewrite (list_accessor_recall get_bp_readings _ _ _
             (fun obj => list_accessor_spec obj _)).
  reflexivity.
Qed.

Lemma aligned_metrics_samples (gold_list pred_list : list value) :
  n_samples (aligned_metrics gold_list pred_list)
  = Nat.min (List.length gold_list) (List.length pred_list).
Proof.
  unfold aligned_metrics.
  destruct (Nat.min (List.length gold_list) (List.length pred_list));
    reflexivity.
Qed.

Lemma aligned_metrics_slices (gold_list pred_list : list value) :
  let n := Nat.min (List.length gold_list) (List.length pred_list) in
  aligned_metrics (firstn n gold_list) (firstn n pred_list)
  = aligned_metrics gold_list pred_list.
Proof.
  intros n.
  destruct (slices_same_length n gold_list pred_list eq_refl) as [Lg Lp].
  unfold aligned_metrics. fold n. rewrite Lg, Lp, Nat.min_id.
  rewrite !firstn_firstn, Nat.min_id. reflexivity.
Qed.

Lemma aligned_metrics_over (gold_list pred_list : list value) :
  metrics_over
    (firstn (Nat.min (List.length gold_list) (List.length pred_list)) gold_list)
    (firstn (Nat.min (List.length gold_list) (List.length pred_list)) pred_list)
    (aligned_metrics gold_list pred_list).
Proof.
  unfold metrics_over, aligned_metrics.
  destruct (slices_same_length _ gold_list pred_list eq_refl) as [Lg Lp].
  destruct (Nat.min (List.length gold_list) (List.length pred_list)) as [|n].
  - cbn. repeat split; reflexivity.
  - assert (Hlen : List.length (firstn (S n) gold_list)
                   = List.length (firstn (S n) pred_list)) by congruence.
    cbn [diabetes_type_accuracy diabetes_status_accuracy diabetes_a1c_recall
         diabetes_glucose_recall bp_hypertension_status_accuracy
         bp_readings_recall].
    repeat split.
    + exact (scalar_accessor_accuracy get_diabetes_type _ _ _
               (fun obj => scalar_accessor_spec obj _) Hlen).
    + exact (scalar_accessor_accuracy get_diabetes_status _ _ _
               (fun obj => scalar_accessor_spec obj _) Hlen).
    + exact (list_accessor_recall get_diabetes_a1c _ _ _
               (fun obj => list_accessor_spec obj _)).
    + exact (list_accessor_recall get_diabetes_glucose _ _ _
               (fun obj => list_accessor_spec obj _)).
    + exact (scalar_accessor_accuracy get_bp_status _ _ _
               (fun obj => scalar_accessor_spec obj _) Hlen).
    + exact (list_accessor_recall get_bp_readings _ _ _
               (fun obj => list_accessor_spec obj _)).
Qed.

(** C6: whatever the lengths of the two loaded sequences, [run_validation]
    raises nothing and computes its metrics over both sequences cut to the
    shorter length: [n_samples] is that length, each of the six metrics is
    what its metric function returns on the two truncated sequences, that is
    the accuracy and the micro-averaged recall over the aligned pairs, and
    the whole result is the one obtained from the truncated sequences.  With
    3 gold records and 2 predictions, [n_samples] is 2. *)
Theorem run_validation_truncates
  (fs fs' : filesystem) (gold_path extraction_path : Path)
  (gold_list pred_list : list value) :
  fs gold_path = Json (VList gold_list) ->
  fs extraction_path = Json (VList pred_list) ->
  fs' gold_path
  = Json (VList (firstn (Nat.min (List.length gold_list) (List.length pred_list))
                        gold_list)) ->
  fs' extraction_path
  = Json (VList (firstn (Nat.min (List.length gold_list) (List.length pred_list))
                        pred_list)) ->
  exists m,
    run_validation fs gold_path extraction_path = Ok m /\
    n_samples m = Nat.min (List.length gold_list) (List.length pred_list) /\
    metrics_over
      (firstn (Nat.min (List.length gold_list) (List.length pred_list)) gold_list)
      (firstn (Nat.min (List.length gold_list) (List.length pred_list)) pred_list)
      m /\
    m = aligned_metrics gold_list pred_list /\
    run_validation fs' gold_path extraction_path = Ok m /\
    (List.length gold_list = 3 -> List.length pred_list = 2 -> n_samples m = 2).
Proof.
  intros Hg Hp Hg' Hp'. exists (aligned_metrics gold_list pred_list).
  split; [apply run_validation_value; assumption|].
  split; [apply aligned_metrics_samples|].
  split; [apply aligned_metrics_over|].
  split; [reflexivity|].
  split.
  - rewrite (run_validation_value _ _ _ _ _ Hg' Hp').
    f_equal. apply aligned_metrics_slices.
  - intros L3 L2. rewrite aligned_metrics_samples, L3, L2. reflexivity.
Qed.

(** C10: when the shorter of the two loaded sequences is empty,
    [run_validation] returns the fixed mapping: no sample, accuracies [0.0],
    recalls [1.0], whatever the records of the other sequence hold. *)
Theorem run_validation_no_samples
  (fs : filesystem) (gold_path extraction_path : Path)
  (gold_list pred_list : list value) :
  fs gold_path = Json (VList gold_list) ->
  fs extraction_path = Json (VList pred_list) ->
  Nat.min (List.length gold_list) (List.length pred_list) = 0 ->
  run_validation fs gold_path extraction_path
  = Ok {| n_samples := 0;
          diabetes_type_accuracy := 0%Q;
          diabetes_status_accuracy := 0%Q;
          diabetes_a1c_recall := 1%Q;
          diabetes_glucose_recall := 1%Q;
          bp_hypertension_status_accuracy := 0%Q;
          bp_readings_recall := 1%Q |}.
Proof.
  intros Hg Hp Hn. rewrite (run_validation_value _ _ _ _ _ Hg Hp).
  unfold aligned_metrics. rewrite Hn. reflexivity.
Qed.

Lemma load_json_raises (fs : filesystem) (path : Path) (e : exn) :
  _load_json fs path = Raise e ->
  exists msg,
    e = FileNotFoundError msg \/ e = OSError msg
    \/ e = JSONDecodeError msg \/ e = ValueError msg.
Proof.
  destruct (load_json_cases fs path)
    as [[_ L] | [[msg [_ L]] | [[msg [_ L]] | [[data [_ [_ L]]]
                                                | [records [_ L]]]]]];
    rewrite L; intros H; try discriminate H; injection H as <-; eauto 6.
Qed.

Lemma load_failure_kinds (fs : filesystem) (gold_path extraction_path : Path)
  (e : exn) :
  load_failure fs gold_path extraction_path = Some e ->
  exists msg,
    e = FileNotFoundError msg \/ e = OSError msg
    \/ e = JSONDecodeError msg \/ e = ValueError msg.
Proof.
  unfold load_failure.
  destruct (_load_json fs gold_path) as [gold_list|x] eqn:Lg.
  - destruct (_load_json fs extraction_path) as [pred_list|x] eqn:Lp;
      intros H; [discriminate H|].
    injection H as <-. exact (load_json_raises _ _ _ Lp).
  - intros H. injection H as <-. exact (load_json_raises _ _ _ Lg).
Qed.

Lemma run_validation_load_failure
  (fs : filesystem) (gold_path extraction_path : Path) (e : exn) :
  load_failure fs gold_path extraction_path = Some e ->
  run_validation fs gold_path extraction_path = Raise e.
Proof.
  unfold load_failure, run_validation.
  destruct (_load_json fs gold_path) as [gold_list|x].
  - destruct (_load_json fs extraction_path) as [pred_list|x];
      intros H; [discriminate H|].
    injection H as <-. reflexivity.
  - intros H. injection H as <-. reflexivity.
Qed.

Lemma run_validation_loaded
  (fs : filesystem) (gold_path extraction_path : Path) :
  load_failure fs gold_path extraction_path = None ->
  exists gold_list pred_list,
    fs gold_path = Json (VList gold_list) /\
    fs extraction_path = Json (VList pred_list) /\
    run_validation fs gold_path extraction_path
    = Ok (aligned_metrics gold_list pred_list).
Proof.
  unfold load_failure. intros H.
  destruct (load_json_cases fs gold_path)
    as [[_ Lg] | [[msg [_ Lg]] | [[msg [_ Lg]] | [[data [_ [_ Lg]]]
                                                  | [gold_list [Fg Lg]]]]]];
    rewrite Lg in H; try discriminate H.
  destruct (load_json_cases fs extraction_path)
    as [[_ Lp] | [[msg [_ Lp]] | [[msg [_ Lp]] | [[data [_ [_ Lp]]]
                                                  | [pred_list [Fp Lp]]]]]];
    rewrite Lp in H; try discriminate H.
  exists gold_list, pred_list.
  split; [exact Fg|]. split; [exact Fp|].
  apply run_validation_value; assumption.
Qed.

Lemma run_validation_raises (fs : filesystem) (gold_path extraction_path : Path)
  (e : exn) :
  run_validation fs gold_path extraction_path = Raise e ->
  load_failure fs gold_path extraction_path = Some e.
Proof.
  intros H.
  destruct (load_failure fs gold_path extraction_path) as [x|] eqn:F.
  - rewrite (run_validation_load_failure _ _ _ _ F) in H. congruence.
  - destruct (run_validation_loaded _ _ _ F) as [g [p [_ [_ R]]]].
    rewrite R in H. discriminate H.
Qed.

Lemma main_on_chosen_paths (fs : filesystem) (argv : list string) :
  List.length argv <> 2 ->
  main fs argv
  = main_try fs (fst (chosen_paths argv)) (snd (chosen_paths argv)).
Proof.
  intros H. unfold main, chosen_paths.
  destruct (Nat.leb 3 (List.length argv)); [reflexivity|].
  destruct (Nat.eqb_spec (List.length argv) 2); [contradiction | reflexivity].
Qed.

(** C7: [_load_json] raises [FileNotFoundError] exactly when nothing exists
    at the path, and its [ValueError] exactly when the file parses to a value
    that is not a list.  When loading the gold file, or else the prediction
    file, raises one of these two errors, [run_validation] raises it too, and
    [main] writes the one message to the error stream, returns 1 and prints
    nothing of the report. *)
Theorem load_errors_reach_entry_point :
  (forall fs path,
     (exists msg, _load_json fs path = Raise (FileNotFoundError msg))
     <-> fs path = Missing) /\
  (forall fs path,
     (exists msg, _load_json fs path = Raise (ValueError msg))
     <-> exists data, fs path = Json data /\ is_list data = false) /\
  (forall fs argv e msg,
     List.length argv <> 2 ->
     e = FileNotFoundError msg \/ e = ValueError msg ->
     _load_json fs (fst (chosen_paths argv)) = Raise e \/
     (exists gold_list,
        _load_json fs (fst (chosen_paths argv)) = Ok gold_list /\
        _load_json fs (snd (chosen_paths argv)) = Raise e) ->
     run_validation fs (fst (chosen_paths argv)) (snd (chosen_paths argv))
     = Raise e /\
     main fs argv = {| stdout := [];
                       stderr := [("Error: " ++ msg)%string];
                       returned := Ok 1%Z |}).
Proof.
  split; [|split].
  - intros fs path.
    destruct (load_json_cases fs path)
      as [[F L] | [[msg [F L]] | [[msg [F L]] | [[data [F [_ L]]]
                                                 | [records [F L]]]]]];
      rewrite L, F; split; intros H;
      try (destruct H; discriminate); try discriminate; eauto.
  - intros fs path.
    destruct (load_json_cases fs path)
      as [[F L] | [[msg [F L]] | [[msg [F L]] | [[data [F [D L]]]
                                                 | [records [F L]]]]]];
      rewrite L, F; split; intros H;
      try (destruct H as [x H]; discriminate); eauto.
    + destruct H as [data [H _]]; discriminate.
    + destruct H as [data [H _]]; discriminate.
    + destruct H as [data [H _]]; discriminate.
    + destruct H as [data [H D]]. injection H as <-. discriminate.
  - intros fs argv e msg Hargv Hkind Hload.
    assert (Hfail : load_failure fs (fst (chosen_paths argv))
                      (snd (chosen_paths argv)) = Some e).
    { unfold load_failure.
      destruct Hload as [-> | [gold_list [-> ->]]]; reflexivity. }
    apply run_validation_load_failure in Hfail.
    split; [exact Hfail|].
    rewrite (main_on_chosen_paths _ _ Hargv). unfold main_try. rewrite Hfail.
    destruct Hkind as [-> | ->]; reflexivity.
Qed.

(** ** Bounds and extreme values of the metrics *)

Lemma fraction_in_unit_interval (a b : nat) :
  a <= b -> b <> 0 ->
  (0 <= Z.of_nat a # Pos.of_nat b)%Q /\ (Z.of_nat a # Pos.of_nat b <= 1)%Q.
Proof.
  intros Hab Hb. unfold Qle. cbn [Qnum Qden].
  destruct b as [|b]; [contradiction|].
  rewrite <- Pos.of_nat_succ, Zpos_P_of_succ_nat. lia.
Qed.

Lemma full_fraction (b : nat) : b <> 0 -> (Z.of_nat b # Pos.of_nat b == 1)%Q.
Proof.
  intros Hb. unfold Qeq. cbn [Qnum Qden].
  destruct b as [|b]; [contradiction|].
  rewrite <- Pos.of_nat_succ, Zpos_P_of_succ_nat. lia.
Qed.

Lemma exact_match_loop_bounds (getter_gold getter_pred : value -> result value)
  (pairs : list (value * value)) (correct correct' : nat) :
  for_each (exact_match_body getter_gold getter_pred) pairs correct = Ok correct' ->
  correct <= correct' <= correct + List.length pairs.
Proof.
  revert correct; induction pairs as [|[gold pred] pairs IH]; intros correct H.
  - simpl in H. injection H as <-. simpl. lia.
  - simpl in H.
    destruct (getter_gold gold) as [g|]; [|discriminate].
    destruct (getter_pred pred) as [p|]; [|discriminate].
    simpl in H. apply IH in H.
    destruct (pystr_eqb (scalar_str g) (scalar_str p)); simpl; lia.
Qed.

(** X1: whenever [compute_exact_match_accuracy] returns, for any getters and
    any two sequences, the value lies between 0 and 1. *)
Theorem accuracy_in_unit_interval
  (gold_list pred_list : list value)
  (getter_gold getter_pred : value -> result value) (q : Q) :
  compute_exact_match_accuracy gold_list pred_list getter_gold getter_pred = Ok q ->
  (0 <= q)%Q /\ (q <= 1)%Q.
Proof.
  unfold compute_exact_match_accuracy. intros H.
  destruct gold_list as [|g gs].
  - injection H as <-. split; discriminate.
  - cbn [List.length Nat.eqb] in H.
    destruct (for_each _ _ _) as [correct|] eqn:Hloop; [|discriminate].
    cbn [bind] in H. unfold py_truediv in H. cbn [Nat.eqb] in H.
    injection H as <-.
    apply exact_match_loop_bounds in Hloop.
    apply (fraction_in_unit_interval correct (List.length (g :: gs)));
      [|discriminate].
    pose proof (length_combine (g :: gs) pred_list) as Hlen.
    cbn [List.length] in *. lia.
Qed.

(** X2: whenever [compute_list_recall] returns, for any getters and any two
    sequences, the value lies between 0 and 1. *)
Theorem recall_in_unit_interval
  (gold_list pred_list : list value)
  (getter_gold getter_pred : value -> result value) (q : Q) :
  compute_list_recall gold_list pred_list getter_gold getter_pred = Ok q ->
  (0 <= q)%Q /\ (q <= 1)%Q.
Proof.
  unfold compute_list_recall. intros H.
  destruct (for_each _ _ _) as [[total_tp total_fn]|]; [|discriminate].
  simpl in H.
  destruct (Nat.eqb_spec (total_tp + total_fn) 0) as [E|E].
  - injection H as <-. split; discriminate.
  - unfold py_truediv in H.
    destruct (Nat.eqb_spec (total_tp + total_fn) 0); [contradiction|].
    injection H as <-. apply fraction_in_unit_interval; lia.
Qed.

Lemma correct_pairs_same (getter : value -> value) (records : list value) :
  correct_pairs getter getter (combine records records) = List.length records.
Proof.
  unfold correct_pairs. induction records as [|r rs IH]; simpl; [reflexivity|].
  unfold pair_correct at 1. simpl.
  destruct (pystr_eq_dec _ _); [|contradiction]. simpl. rewrite IH. reflexivity.
Qed.

(** X3: scoring a non-empty sequence against itself with one getter gives an
    accuracy of 1. *)
Theorem accuracy_of_identical_sequences
  (records : list value) (getter : value -> value) :
  records <> [] ->
  exists q,
    compute_exact_match_accuracy records records (returns getter) (returns getter)
    = Ok q /\ (q == 1)%Q.
Proof.
  intros Hne. rewrite accuracy_value by assumption.
  eexists; split; [reflexivity|].
  rewrite correct_pairs_same. apply full_fraction.
  destruct records; [contradiction | discriminate].
Qed.

Lemma correct_pairs_none (get_gold get_pred : value -> value)
  (pairs : list (value * value)) :
  (forall pair, In pair pairs ->
     normalized (get_gold (fst pair)) <> normalized (get_pred (snd pair))) ->
  correct_pairs get_gold get_pred pairs = 0.
Proof.
  unfold correct_pairs. induction pairs as [|pair pairs IH]; intros H; simpl.
  - reflexivity.
  - unfold pair_correct at 1.
    destruct (pystr_eq_dec _ _) as [E|_].
    + exfalso. exact (H pair (or_introl eq_refl) E).
    + apply IH. intros; apply H; right; assumption.
Qed.

(** X4: when the normalised values of every aligned pair differ, the
    accuracy is 0. *)
Theorem accuracy_when_every_pair_differs
  (gold_list pred_list : list value) (get_gold get_pred : value -> value) :
  (forall pair, In pair (combine gold_list pred_list) ->
     scalar_str (get_gold (fst pair)) <> scalar_str (get_pred (snd pair))) ->
  exists q,
    compute_exact_match_accuracy gold_list pred_list
      (returns get_gold) (returns get_pred) = Ok q /\ (q == 0)%Q.
Proof.
  intros H. destruct gold_list as [|g gs].
  - exists 0%Q. split; reflexivity.
  - rewrite accuracy_value by discriminate.
    eexists; split; [reflexivity|].
    rewrite correct_pairs_none; [reflexivity|].
    intros pair Hin. rewrite <- !scalar_str_normalized. apply H; assumption.
Qed.

Lemma item_found_member (items : list value) (item : value) :
  In item items -> item_found items item = true.
Proof.
  unfold item_found. intros Hin. apply existsb_exists.
  exists item. split; [assumption|].
  destruct (pystr_eq_dec _ _); [reflexivity | contradiction].
Qed.

Lemma record_all_found (g_items p_items : list value) :
  (forall item, In item g_items -> item_found p_items item = true) ->
  record_tp (g_items, p_items) = List.length g_items /\
  record_fn (g_items, p_items) = 0.
Proof.
  intros H. pose proof (record_tp_fn (g_items, p_items)) as Hsum.
  assert (Hfn : record_fn (g_items, p_items) = 0).
  { unfold record_fn. simpl. clear Hsum.
    induction g_items as [|g gs IH]; simpl; [reflexivity|].
    rewrite (H g (or_introl eq_refl)). simpl.
    apply IH. intros; apply H; right; assumption. }
  simpl in Hsum. lia.
Qed.

Lemma micro_recall_no_miss (records : list (list value * list value)) :
  list_sum (map record_fn records) = 0 ->
  (micro_recall records == 1)%Q.
Proof.
  intros H. unfold micro_recall. rewrite H, Nat.add_0_r.
  destruct (list_sum (map record_tp records)) as [|tp] eqn:E; [reflexivity|].
  apply full_fraction. discriminate.
Qed.

Lemma aligned_self_no_miss (getter : value -> value) (records : list value) :
  list_sum (map record_fn (aligned_lists getter getter records records)) = 0.
Proof.
  unfold aligned_lists.
  induction records as [|r rs IH]; simpl; [reflexivity|].
  rewrite IH, Nat.add_0_r.
  apply record_all_found. intros item Hin. apply item_found_member; assumption.
Qed.

(** X5: scoring a sequence against itself with one getter gives a recall
    of 1: every gold item is found in its own list. *)
Theorem recall_of_identical_sequences
  (records : list value) (getter : value -> value) :
  exists q,
    compute_list_recall records records (returns getter) (returns getter)
    = Ok q /\ (q == 1)%Q.
Proof.
  rewrite list_recall_value. eexists; split; [reflexivity|].
  apply micro_recall_no_miss, aligned_self_no_miss.
Qed.

Lemma combine_cut {A B : Type} (xs : list A) (ys : list B) :
  combine xs ys = combine (firstn (List.length ys) xs) ys.
Proof.
  revert ys; induction xs as [|x xs IH]; intros [|y ys]; simpl; try reflexivity.
  rewrite <- IH. reflexivity.
Qed.

(** X6: gold records beyond the last prediction do not enter the recall at
    all: their items count neither as found nor as missed (while
    [compute_exact_match_accuracy] keeps them in its denominator). *)
Theorem recall_ignores_unpaired_gold
  (gold_list pred_list : list value)
  (getter_gold getter_pred : value -> result value) :
  compute_list_recall gold_list pred_list getter_gold getter_pred
  = compute_list_recall (firstn (List.length pred_list) gold_list) pred_list
      getter_gold getter_pred.
Proof.
  unfold compute_list_recall. rewrite <- combine_cut. reflexivity.
Qed.

Lemma item_found_incl (p_items p_items' : list value) (g_item : value) :
  incl p_items p_items' ->
  item_found p_items g_item = true -> item_found p_items' g_item = true.
Proof.
  unfold item_found. intros Hincl H.
  apply existsb_exists in H. destruct H as [x [Hin Hx]].
  apply existsb_exists. exists x. split; [apply Hincl; assumption | exact Hx].
Qed.

Lemma record_tp_incl (g_items p_items p_items' : list value) :
  incl p_items p_items' ->
  record_tp (g_items, p_items) <= record_tp (g_items, p_items').
Proof.
  intros Hincl. unfold record_tp. simpl.
  induction g_items as [|g gs IH]; simpl; [lia|].
  destruct (item_found p_items g) eqn:E.
  - rewrite (item_found_incl _ _ _ Hincl E). simpl. lia.
  - destruct (item_found p_items' g); simpl; lia.
Qed.

Lemma aligned_counts_incl (get_gold get_pred : value -> value)
  (gold_list pred_list pred_list' : list value) :
  Forall2 (fun pred pred' =>
             incl (_ensure_list (get_pred pred)) (_ensure_list (get_pred pred')))
          pred_list pred_list' ->
  let counts := aligned_lists get_gold get_pred gold_list in
  list_sum (map record_tp (counts pred_list))
  <= list_sum (map record_tp (counts pred_list')) /\
  list_sum (map record_tp (counts pred_list))
  + list_sum (map record_fn (counts pred_list))
  = list_sum (map record_tp (counts pred_list'))
    + list_sum (map record_fn (counts pred_list')).
Proof.
  intros H. cbv zeta. unfold aligned_lists. revert gold_list.
  induction H as [|p p' ps ps' Hp _ IH]; intros gold_list.
  - destruct gold_list; simpl; lia.
  - destruct gold_list as [|g gs]; simpl; [lia|].
    destruct (IH gs) as [IHle IHeq].
    pose proof (record_tp_incl (_ensure_list (get_gold g)) _ _ Hp) as Hle.
    pose proof (record_tp_fn (_ensure_list (get_gold g), _ensure_list (get_pred p)))
      as H1.
    pose proof (record_tp_fn (_ensure_list (get_gold g), _ensure_list (get_pred p')))
      as H2.
    simpl in H1, H2. lia.
Qed.

(** X7: predicting more never lowers the recall: when every predicted list
    is contained in the corresponding list of a second prediction, the
    recall of the second is at least that of the first.  Items predicted in
    excess are not penalised. *)
Theorem recall_monotone_in_predictions
  (gold_list pred_list pred_list' : list value)
  (get_gold get_pred : value -> value) :
  Forall2 (fun pred pred' =>
             incl (_ensure_list (get_pred pred)) (_ensure_list (get_pred pred')))
          pred_list pred_list' ->
  exists q q',
    compute_list_recall gold_list pred_list (returns get_gold) (returns get_pred)
    = Ok q /\
    compute_list_recall gold_list pred_list' (returns get_gold) (returns get_pred)
    = Ok q' /\
    (q <= q')%Q.
Proof.
  intros H. rewrite !list_recall_value.
  do 2 eexists. split; [reflexivity|]. split; [reflexivity|].
  destruct (aligned_counts_incl get_gold get_pred gold_list _ _ H) as [Hle Heq].
  unfold micro_recall. rewrite <- Heq.
  destruct (_ + _) as [|total]; [discriminate|].
  unfold Qle. cbn [Qnum Qden].
  apply Z.mul_le_mono_nonneg_r; lia.
Qed.

(** *** White space and blank values *)

Lemma lstrip_spaces_app (l s : pystr) :
  forallb isspace l = true -> lstrip (l ++ s) = lstrip s.
Proof.
  induction l as [|c l IH]; simpl; [reflexivity|].
  intros H. apply andb_true_iff in H. destruct H as [-> H]. auto.
Qed.

Lemma lstrip_split (s : pystr) :
  exists w, s = w ++ lstrip s /\ forallb isspace w = true.
Proof.
  induction s as [|c s [w [IH W]]]; simpl.
  - exists []. split; reflexivity.
  - destruct (isspace c) eqn:E.
    + exists (c :: w). simpl. rewrite E, W. split; [congruence | reflexivity].
    + exists []. split; reflexivity.
Qed.

Lemma lstrip_head (s t : pystr) (c : N) :
  lstrip s = c :: t -> isspace c = false.
Proof.
  induction s as [|d s IH]; simpl; [discriminate|].
  destruct (isspace d) eqn:E; [exact IH|].
  intros H; injection H as <- _. exact E.
Qed.

Lemma lstrip_fixed (s : pystr) :
  match s with c :: _ => isspace c = false | [] => True end -> lstrip s = s.
Proof.
  destruct s as [|c s]; simpl; [reflexivity|]. intros ->. reflexivity.
Qed.

Lemma strip_padded (l s r : pystr) :
  forallb isspace l = true -> forallb isspace r = true ->
  strip (l ++ s ++ r) = strip s.
Proof.
  intros Hl Hr. unfold strip. rewrite (lstrip_spaces_app l _ Hl).
  destruct (lstrip_split s) as [w [Hs Hw]].
  destruct (lstrip s) as [|c t] eqn:E.
  - rewrite app_nil_r in Hs. subst w.
    rewrite (lstrip_spaces_app s r Hw).
    destruct (lstrip_split r) as [w' [Hr' Hw']].
    assert (Hall : lstrip r = []).
    { clear -Hr. induction r as [|x r IH]; simpl; [reflexivity|].
      simpl in Hr. apply andb_true_iff in Hr. destruct Hr as [-> Hr]. auto. }
    rewrite Hall. reflexivity.
  - pose proof (lstrip_head _ _ _ E) as Hc.
    rewrite Hs at 1. rewrite <- app_assoc, (lstrip_spaces_app w _ Hw).
    simpl. rewrite Hc.
    change (c :: t ++ r) with ((c :: t) ++ r).
    rewrite rev_app_distr.
    rewrite lstrip_spaces_app; [reflexivity|].
    rewrite forallb_forall in *. intros x Hx. apply Hr, in_rev; assumption.
Qed.

Lemma scalar_str_of_string (s : pystr) : scalar_str (VStr s) = strip s.
Proof. destruct s; reflexivity. Qed.

(** X8: white space around a string value never matters: a string padded
    with white space on either side normalises, as a scalar and as a list
    item, to the same text as the bare string. *)
Theorem surrounding_whitespace_is_ignored (l s r : pystr) :
  forallb isspace l = true -> forallb isspace r = true ->
  scalar_str (VStr (l ++ s ++ r)) = scalar_str (VStr s) /\
  strip (py_str (VStr (l ++ s ++ r))) = strip (py_str (VStr s)).
Proof.
  intros Hl Hr. rewrite !scalar_str_of_string. simpl.
  split; apply strip_padded; assumption.
Qed.

Lemma strip_spaces (s : pystr) : forallb isspace s = true -> strip s = [].
Proof.
  intros H. pose proof (strip_padded s [] [] H eq_refl) as E.
  rewrite !app_nil_r in E. exact E.
Qed.

Lemma blank_scalar_normalised (obj : value) (keys : list pystr) :
  blank_at obj keys ->
  (v <- _get_nested obj keys VNone ;; Ok (scalar_str (py_or v (VStr [])))) = Ok [].
Proof.
  intros H. unfold _get_nested. rewrite _get_nested_from_spec. simpl.
  destruct H as [-> | [v [-> [Hv | [s [-> Hs]]]]]].
  - reflexivity.
  - destruct v as [ | b | z | f | s | xs | kvs]; simpl in *;
      unfold py_or; simpl; try rewrite Hv; reflexivity.
  - unfold py_or. simpl. destruct s as [|c s]; [reflexivity|].
    rewrite scalar_str_of_string. rewrite (strip_spaces _ Hs). reflexivity.
Qed.

(** X9: a scalar field that is absent, null, falsy (0, false, an empty list
    or mapping, the empty string) or a string of white space is scored as the
    empty string: that is what each scalar accessor followed by the
    normalisation of [compute_exact_match_accuracy] yields. *)
Theorem blank_scalar_scores_as_empty
  (obj : value) (get : value -> result value) (keys : list pystr) :
  In (get, keys) scalar_accessor_paths ->
  blank_at obj keys ->
  (v <- get obj ;; Ok (scalar_str v)) = Ok [].
Proof.
  intros Hin Hblank. apply blank_scalar_normalised in Hblank.
  rewrite <- Hblank.
  destruct Hin as [E | [E | [E | []]]]; injection E as <- <-;
    [unfold get_diabetes_type | unfold get_diabetes_status | unfold get_bp_status];
    destruct (_get_nested obj _ VNone); reflexivity.
Qed.

Lemma lookup_path_app (obj : value) (keys1 keys2 : list pystr) :
  lookup_path obj (keys1 ++ keys2)
  = match lookup_path obj keys1 with
    | Some v => lookup_path v keys2
    | None => None
    end.
Proof.
  revert obj; induction keys1 as [|k ks IH]; intros obj; simpl; [reflexivity|].
  destruct obj; try reflexivity.
  destruct (dict_get kvs k); [apply IH | reflexivity].
Qed.

(** X10: looking a path up is looking its parts up one after the other:
    [_get_nested] on [keys1 ++ keys2] is [_get_nested] on [keys2] from the
    value [keys1] leads to, and the typed default when [keys1] leads
    nowhere. *)
Theorem get_nested_splits_path
  (obj : value) (keys1 keys2 : list pystr) (default_list : value) :
  _get_nested obj (keys1 ++ keys2) default_list
  = match lookup_path obj keys1 with
    | Some v => _get_nested v keys2 default_list
    | None => Ok (typed_default (negb (is_none default_list)))
    end.
Proof.
  unfold _get_nested. rewrite !_get_nested_from_spec, lookup_path_app.
  destruct (lookup_path obj keys1) as [v|]; [|reflexivity].
  rewrite _get_nested_from_spec. reflexivity.
Qed.

(** ** Further properties of the validation run and of the entry point *)

Lemma exact_match_accuracy_range (gold pred : list value)
  (get_gold get_pred : value -> value) :
  in_unit_interval (exact_match_accuracy gold pred get_gold get_pred).
Proof.
  unfold exact_match_accuracy, in_unit_interval.
  destruct (combine gold pred) as [|pair pairs] eqn:E; [split; discriminate|].
  apply (fraction_in_unit_interval _ (List.length (pair :: pairs)));
    [apply correct_pairs_le | discriminate].
Qed.

Lemma micro_recall_range (records : list (list value * list value)) :
  in_unit_interval (micro_recall records).
Proof.
  unfold micro_recall, in_unit_interval.
  destruct (_ + _) as [|total] eqn:E; [split; discriminate|].
  rewrite <- E. apply fraction_in_unit_interval; lia.
Qed.

Lemma aligned_metrics_range (gold pred : list value) :
  metrics_in_range (aligned_metrics gold pred).
Proof.
  unfold aligned_metrics, metrics_in_range.
  destruct (Nat.min _ _).
  - simpl. unfold in_unit_interval. repeat split; discriminate.
  - cbn [diabetes_type_accuracy diabetes_status_accuracy diabetes_a1c_recall
         diabetes_glucose_recall bp_hypertension_status_accuracy
         bp_readings_recall].
    repeat split;
      first [apply exact_match_accuracy_range | apply micro_recall_range].
Qed.

Lemma run_validation_ok_inv (fs : filesystem) (gold_path extraction_path : Path)
  (m : metrics) :
  run_validation fs gold_path extraction_path = Ok m ->
  exists gold_list pred_list,
    fs gold_path = Json (VList gold_list) /\
    fs extraction_path = Json (VList pred_list) /\
    m = aligned_metrics gold_list pred_list.
Proof.
  intros H.
  destruct (load_failure fs gold_path extraction_path) as [e|] eqn:F.
  - rewrite (run_validation_load_failure _ _ _ _ F) in H. discriminate H.
  - destruct (run_validation_loaded _ _ _ F)
      as [gold_list [pred_list [Fg [Fp R]]]].
    rewrite R in H. injection H as <-. eauto.
Qed.

(** X11: every mapping [run_validation] returns has its six metrics in
    [[0, 1]], and its sample count is at most the length of either loaded
    sequence. *)
Theorem run_validation_metrics_in_range
  (fs : filesystem) (gold_path extraction_path : Path) (m : metrics) :
  run_validation fs gold_path extraction_path = Ok m ->
  metrics_in_range m /\
  exists gold_list pred_list,
    fs gold_path = Json (VList gold_list) /\
    fs extraction_path = Json (VList pred_list) /\
    n_samples m <= List.length gold_list /\
    n_samples m <= List.length pred_list.
Proof.
  intros H. apply run_validation_ok_inv in H.
  destruct H as [gold_list [pred_list [Fg [Fp ->]]]].
  split; [apply aligned_metrics_range|].
  exists gold_list, pred_list. rewrite aligned_metrics_samples.
  repeat split; try assumption; lia.
Qed.

Lemma exact_match_accuracy_self (records : list value) (getter : value -> value) :
  records <> [] ->
  (exact_match_accuracy records records getter getter == 1)%Q.
Proof.
  intros Hne. unfold exact_match_accuracy.
  destruct records as [|r rs]; [contradiction|].
  cbn [combine]. change ((r, r) :: combine rs rs) with (combine (r :: rs) (r :: rs)).
  rewrite correct_pairs_same, length_combine, Nat.min_id.
  apply full_fraction. discriminate.
Qed.

(** X12: validating a non-empty file against itself (or against a file with
    the same records) gives a perfect score: every accuracy and every recall
    is 1 and all records are counted. *)
Theorem run_validation_on_identical_records
  (fs : filesystem) (gold_path extraction_path : Path) (records : list value) :
  fs gold_path = Json (VList records) ->
  fs extraction_path = Json (VList records) ->
  records <> [] ->
  exists m,
    run_validation fs gold_path extraction_path = Ok m /\
    n_samples m = List.length records /\
    metrics_perfect m.
Proof.
  intros Fg Fp Hne. exists (aligned_metrics records records).
  split; [apply run_validation_value; assumption|].
  split; [rewrite aligned_metrics_samples; apply Nat.min_id|].
  unfold aligned_metrics, metrics_perfect. rewrite Nat.min_id, firstn_all.
  destruct records as [|r rs]; [contradiction|].
  cbn [List.length diabetes_type_accuracy diabetes_status_accuracy
       diabetes_a1c_recall diabetes_glucose_recall
       bp_hypertension_status_accuracy bp_readings_recall].
  repeat split;
    first [ apply exact_match_accuracy_self; discriminate
          | apply micro_recall_no_miss, aligned_self_no_miss ].
Qed.

(** X13: [main] by case.  With exactly one argument it writes the usage
    line to the error stream and returns 1.  Otherwise, when both chosen
    files load as JSON lists, it prints the report of their metrics, writes
    nothing to the error stream and returns 0; when the first load that fails
    raises [FileNotFoundError], the decode error of [json.load] or the
    [ValueError] of the loader, it writes the one line with the message to
    the error stream, prints nothing and returns 1; and when that load fails
    with another [OSError] of [open] the exception is not caught: it leaves
    [main] with nothing written.  A load fails in no other way. *)
Theorem main_outcome_by_case (fs : filesystem) (argv : list string) :
  (List.length argv = 2 ->
   main fs argv
   = {| stdout := [];
        stderr := ["Usage: validate_extraction.py [gold_standard.json extraction_results.json]"];
        returned := Ok 1%Z |}) /\
  (List.length argv <> 2 ->
   match load_failure fs (fst (chosen_paths argv)) (snd (chosen_paths argv)) with
   | None =>
       exists gold_list pred_list,
         fs (fst (chosen_paths argv)) = Json (VList gold_list) /\
         fs (snd (chosen_paths argv)) = Json (VList pred_list) /\
         main fs argv
         = {| stdout := print_report (aligned_metrics gold_list pred_list);
              stderr := [];
              returned := Ok 0%Z |}
   | Some (FileNotFoundError msg)
   | Some (ValueError msg)
   | Some (JSONDecodeError msg) =>
       main fs argv
       = {| stdout := []; stderr := [("Error: " ++ msg)%string];
            returned := Ok 1%Z |}
   | Some e =>
       (exists msg, e = OSError msg) /\
       main fs argv = {| stdout := []; stderr := []; returned := Raise e |}
   end).
Proof.
  split.
  - intros E. unfold main.
    destruct (Nat.leb_spec 3 (List.length argv)); [lia|].
    rewrite E. reflexivity.
  - intros E. rewrite (main_on_chosen_paths _ _ E). unfold main_try.
    destruct (load_failure fs _ _) as [e|] eqn:F.
    + rewrite (run_validation_load_failure _ _ _ _ F).
      destruct (load_failure_kinds _ _ _ _ F)
        as [msg [-> | [-> | [-> | ->]]]]; try reflexivity.
      split; [eauto | reflexivity].
    + destruct (run_validation_loaded _ _ _ F)
        as [gold_list [pred_list [Fg [Fp R]]]].
      exists gold_list, pred_list. rewrite R. auto.
Qed.


(** ** Schema validation and the agent's answer *)

Lemma not_an_object_at_dict (kvs : list (pystr * value)) (key : pystr) :
  not_an_object_at (VDict kvs) key
  = Ok (match dict_get kvs key with
        | Some (VDict _) => false
        | _ => true
        end).
Proof.
  unfold not_an_object_at. simpl.
  destruct (dict_get kvs key) as [v|]; simpl; [|reflexivity].
  destruct v; reflexivity.
Qed.

Lemma py_in_dict (kvs : list (pystr * value)) (key : pystr) :
  py_in key (VDict kvs)
  = Ok (match dict_get kvs key with Some _ => true | None => false end).
Proof. reflexivity. Qed.

Lemma validate_schema_cases (obj : value) :
  (_validate_schema obj = Ok tt /\ schema_valid obj = true) \/
  (exists msg, _validate_schema obj = Raise (ValueError msg) /\
               In msg schema_messages /\ schema_valid obj = false).
Proof.
  assert (Hroot : forall v, is_dict v = false ->
            exists msg, _validate_schema v = Raise (ValueError msg) /\
                        In msg schema_messages /\ schema_valid v = false).
  { intros v Hv. exists "Root must be a JSON object".
    unfold _validate_schema. rewrite Hv. simpl.
    destruct v; try discriminate; auto. }
  destruct obj as [ | b | z | f | s | xs | kvs];
    try (right; apply Hroot; reflexivity).
  unfold _validate_schema, schema_valid, schema_messages.
  cbn [is_dict negb require_keys].
  rewrite !not_an_object_at_dict, !py_in_dict. cbn [bind].
  destruct (dict_get kvs (u "diabetes")) as [[ | | | | | | d]|];
    try (right; eexists; cbn; split; [reflexivity | auto 10]).
  destruct (dict_get kvs (u "blood_pressure")) as [[ | | | | | | p]|];
    try (right; eexists; cbn; split; [reflexivity | auto 10]).
  destruct (dict_get kvs (u "patient_id")) as [pid|] eqn:Epid;
    [| right; eexists; cbn; split; [reflexivity | auto 10]].
  unfold py_getitem.
  destruct (dict_get kvs (u "abnormal_markers")) as [[ | | | | | ms | ]|];
    try (right; eexists; cbn; split; [reflexivity | auto 10]).
  left. cbn. auto.
Qed.

(** X15: [_validate_schema] accepts a value exactly when it is a mapping
    whose [diabetes] and [blood_pressure] entries are mappings, whose
    [abnormal_markers] entry is a list and which has a [patient_id] entry;
    the fields inside the two objects are not looked at. *)
Theorem validate_schema_accepts (obj : value) :
  _validate_schema obj = Ok tt <-> schema_valid obj = true.
Proof.
  destruct (validate_schema_cases obj) as [[H V] | [msg [H [_ V]]]];
    rewrite H, V; split; intros E; try reflexivity; discriminate E.
Qed.

(** X16: [_validate_schema] fails with a [ValueError] only, never with a
    [KeyError] or [TypeError] of its own look-ups, and its message is one of
    six: of the four keys its loop requires, only [patient_id] and
    [abnormal_markers] can be reported missing. *)
Theorem validate_schema_failures (obj : value) (e : exn) :
  _validate_schema obj = Raise e ->
  exists msg, e = ValueError msg /\ In msg schema_messages.
Proof.
  intros H.
  destruct (validate_schema_cases obj) as [[H' _] | [msg [H' [Hin _]]]];
    rewrite H' in H; [discriminate|].
  injection H as <-. eauto.
Qed.

(** X17: the record [src/main.py] stores for a failed extraction passes
    [_validate_schema], and every accessor of the validation run reads it as
    blank: scalars as the empty string, lists as the empty list. *)
Theorem error_record_is_valid_and_blank (patient_id err : pystr) :
  _validate_schema (error_record patient_id err) = Ok tt /\
  Forall (fun get => get (error_record patient_id err) = Ok (VStr []))
         scalar_accessors /\
  Forall (fun get => get (error_record patient_id err) = Ok (VList []))
         list_accessors.
Proof.
  split; [reflexivity|].
  split; repeat constructor.
Qed.

Lemma strip_decompose (s : pystr) :
  exists l r, s = l ++ strip s ++ r /\
              forallb isspace l = true /\ forallb isspace r = true.
Proof.
  destruct (lstrip_split s) as [l [Hs Hl]].
  destruct (lstrip_split (rev (lstrip s))) as [w [Hr Hw]].
  exists l, (rev w). unfold strip. repeat split.
  - rewrite <- rev_app_distr, <- Hr, rev_involutive. exact Hs.
  - exact Hl.
  - rewrite forallb_forall in *. intros x Hx. apply Hw, in_rev. assumption.
Qed.

Lemma strip_idempotent (s : pystr) : strip (strip s) = strip s.
Proof.
  destruct (strip_decompose s) as [l [r [Hs [Hl Hr]]]].
  rewrite Hs at 2. symmetry. apply strip_padded; assumption.
Qed.

Lemma first_json_group_some (matches : list (option pystr * option pystr))
  (group : pystr) :
  first_json_group matches = Some group ->
  startswith group (u "{") = true /\ strip group = group.
Proof.
  induction matches as [|[group1 group2] rest IH]; cbn [first_json_group];
    [discriminate|].
  destruct (str_or group1 group2) as [[|c g]|]; try exact IH.
  destruct (startswith (strip (c :: g)) (u "{")) eqn:E; [|exact IH].
  intros H. injection H as <-. split; [exact E | apply strip_idempotent].
Qed.

(** X18: whatever the pattern matches, the text [_extract_raw_json] returns
    has no white space around it, and it is either the stripped input or a
    text that begins with an opening brace. *)
Theorem extract_raw_json_result (text : option pystr) :
  strip (_extract_raw_json text) = _extract_raw_json text /\
  (_extract_raw_json text
   = strip (match text with Some s => s | None => [] end)
   \/ startswith (_extract_raw_json text) (u "{") = true).
Proof.
  unfold _extract_raw_json.
  assert (Ht : match str_or text (Some []) with Some s => s | None => [] end
               = match text with Some s => s | None => [] end).
  { destruct text as [[|c s]|]; reflexivity. }
  rewrite Ht. cbv zeta.
  set (t := strip (match text with Some s => s | None => [] end)).
  destruct (startswith t (u "{") && endswith t (u "}")).
  - split; [apply strip_idempotent | left; reflexivity].
  - destruct (first_json_group (json_block_matches t)) as [group|] eqn:E.
    + destruct (first_json_group_some _ _ E) as [Hb Hs]. auto.
    + split; [apply strip_idempotent | left; reflexivity].
Qed.

(** X19: whatever the agent answers, [run_extraction] either returns a
    value that passes the schema, having logged nothing, or raises a
    [ValueError], having logged at most the one parse failure. *)
Theorem run_extraction_outcome (raw : option pystr) (printed : pystr) :
  (forall obj, snd (run_extraction raw printed) = Ok obj ->
     schema_valid obj = true /\ fst (run_extraction raw printed) = []) /\
  (forall e, snd (run_extraction raw printed) = Raise e ->
     (exists msg, e = ValueError msg) /\
     List.length (fst (run_extraction raw printed)) <= 1).
Proof.
  unfold run_extraction.
  destruct (json_loads _) as [parsed|err]; cbn [fst snd].
  - destruct (validate_schema_cases parsed) as [[H V] | [msg [H [Hin V]]]];
      rewrite H; cbn [bind]; split; intros x Hx;
      try discriminate Hx; injection Hx as <-; cbn [List.length]; eauto.
  - split; intros x Hx; [discriminate Hx|].
    injection Hx as <-. cbn [List.length]. eauto.
Qed.

(** ** The keyword filter *)

Lemma is_prefix_iff (a s : pystr) :
  is_prefix a s = true <-> exists y, s = a ++ y.
Proof.
  revert s; induction a as [|c a IH]; intros s; simpl.
  - split; [intros _; exists s; reflexivity | reflexivity].
  - destruct s as [|d s].
    + split; [discriminate | intros [y H]; discriminate H].
    + rewrite andb_true_iff, N.eqb_eq, IH. split.
      * intros [-> [y ->]]. exists y. reflexivity.
      * intros [y H]. injection H as -> ->. eauto.
Qed.

Lemma is_substring_iff (a s : pystr) :
  is_substring a s = true <-> exists x y, s = x ++ a ++ y.
Proof.
  induction s as [|d s IH].
  - simpl. rewrite orb_false_r, is_prefix_iff. split.
    + intros [y H]. exists [], y. exact H.
    + intros [x [y H]]. destruct x; [exists y; exact H | discriminate H].
  - cbn [is_substring]. rewrite orb_true_iff, is_prefix_iff, IH. split.
    + intros [[y H] | [x [y H]]].
      * exists [], y. exact H.
      * exists (d :: x), y. rewrite H. reflexivity.
    + intros [[|c x] [y H]].
      * left. exists y. exact H.
      * right. injection H as _ H. eauto.
Qed.

Lemma lower_from_ascii (whole : pystr) (i : nat) (s : pystr) :
  is_ascii s = true -> lower_from whole i s = map ascii_lower s.
Proof.
  revert i; induction s as [|c s IH]; intros i H; simpl; [reflexivity|].
  simpl in H. apply andb_true_iff in H. destruct H as [-> H].
  rewrite IH by assumption. reflexivity.
Qed.

(** X20: on a text of ASCII characters, [_text_matches] holds exactly when
    the text contains, somewhere and in any mix of upper and lower case, one
    of the keywords "diabetes", "hypertension" and "a1c"; the keyword may sit
    inside a longer word. *)
Theorem text_matches_ascii (t : pystr) :
  is_ascii t = true ->
  _text_matches (CellStr t) = true <->
  exists kw before found after,
    In kw KEYWORDS /\ t = before ++ found ++ after /\
    map ascii_lower found = kw.
Proof.
  intros Ha. unfold _text_matches, py_lower. cbn [pd_isna cell_value py_str].
  rewrite (lower_from_ascii _ _ _ Ha), existsb_exists. split.
  - intros [kw [Hin Hsub]]. apply is_substring_iff in Hsub.
    destruct Hsub as [x [y Hxy]].
    apply map_eq_app in Hxy. destruct Hxy as [before [rest [-> [Hb Hrest]]]].
    apply map_eq_app in Hrest. destruct Hrest as [found [after [-> [Hf _]]]].
    exists kw, before, found, after. auto.
  - intros [kw [before [found [after [Hin [-> Hf]]]]]].
    exists kw. split; [exact Hin|]. apply is_substring_iff.
    rewrite !map_app, Hf. eauto.
Qed.

Lemma filter_chunk_step (names : list pystr) (existing : option csv_file)
  (chunk : frame) (seen : list (list cell)) (st : filter_state) :
  columns chunk = names ->
  has_column names (u "text") = true ->
  filter_invariant names existing seen st ->
  exists st',
    filter_chunk st chunk = inl st' /\
    filter_invariant names existing (seen ++ rows chunk) st' /\
    chunk_number st' = chunk_number st + 1 /\
    List.length (filter_logged st') = List.length (filter_logged st) + 1.
Proof.
  intros Hc Htext [Hs [Hm [Hw Ho]]].
  unfold filter_chunk, _ensure_text_column, filter_invariant.
  rewrite Hc, Htext. cbn [negb]. fold (row_matches names).
  rewrite filter_app.
  set (matched := filter (row_matches names) (rows chunk)).
  destruct (Nat.ltb_spec 0 (List.length matched)) as [Hpos|Hzero].
  - eexists. split; [reflexivity|]. cbn.
    rewrite Hs, Hm, Hw, Ho, !length_app. unfold to_csv.
    destruct (filter (row_matches names) seen) as [|r rs];
      destruct matched as [|x xs]; simpl in *; repeat split; auto; lia.
  - assert (Hnil : matched = [])
      by (destruct matched; simpl in *; [reflexivity | lia]).
    eexists. split; [reflexivity|]. cbn.
    rewrite Hnil, app_nil_r, !length_app, Hs, Hm. cbn.
    repeat split; auto; try lia.
Qed.

Lemma filter_chunks_invariant (names : list pystr) (existing : option csv_file)
  (chunks : list frame) (seen : list (list cell)) (st : filter_state) :
  Forall (fun chunk => columns chunk = names) chunks ->
  has_column names (u "text") = true ->
  filter_invariant names existing seen st ->
  exists st',
    filter_chunks chunks st = inl st' /\
    filter_invariant names existing (seen ++ List.concat (map rows chunks)) st' /\
    chunk_number st' = chunk_number st + List.length chunks /\
    List.length (filter_logged st')
    = List.length (filter_logged st) + List.length chunks.
Proof.
  intros Hcols Htext. revert seen st.
  induction Hcols as [|chunk chunks Hc _ IH]; intros seen st Hinv.
  - exists st. simpl. rewrite app_nil_r.
    split; [reflexivity|]. split; [exact Hinv|]. split; lia.
  - destruct (filter_chunk_step _ _ _ _ _ Hc Htext Hinv)
      as [st1 [Hstep [Hinv1 [Hn1 Hl1]]]].
    destruct (IH _ _ Hinv1) as [st' [Hrun [Hinv' [Hn' Hl']]]].
    exists st'. cbn [filter_chunks]. rewrite Hstep.
    split; [exact Hrun|].
    cbn [map List.concat List.length]. rewrite app_assoc.
    split; [exact Hinv'|]. split; lia.
Qed.

(** X21: when every chunk has the columns [names], the text column among
    them, [run_filter] raises nothing and the output file depends on the rows
    only, not on how they are cut into chunks: if no row matches, the file
    found before the run is left as it was, and otherwise it is replaced by
    the header and the matching rows, in their order. *)
Theorem run_filter_output
  (names : list pystr) (chunks : list frame) (existing : option csv_file) :
  Forall (fun chunk => columns chunk = names) chunks ->
  has_column names (u "text") = true ->
  exists logged,
    run_filter (Some chunks) existing
    = (match filter (row_matches names) (List.concat (map rows chunks)) with
       | [] => existing
       | matched => Some {| csv_header := names; csv_rows := matched |}
       end,
       logged, None).
Proof.
  intros Hcols Htext. unfold run_filter.
  match goal with |- context [filter_chunks chunks ?st] =>
    destruct (filter_chunks_invariant names existing chunks [] st Hcols Htext)
      as [st' [Hrun [[_ [_ [_ Ho]]] _]]]
  end.
  - unfold filter_invariant. cbn. repeat split; reflexivity.
  - rewrite Hrun. cbn [app] in Ho. rewrite Ho. eexists. reflexivity.
Qed.

(** X22: under the same conditions the log of [run_filter] has one record
    per chunk between its first and its last, and the last gives the number
    of rows read and the number of rows that matched. *)
Theorem run_filter_totals
  (names : list pystr) (chunks : list frame) (existing : option csv_file) :
  Forall (fun chunk => columns chunk = names) chunks ->
  has_column names (u "text") = true ->
  exists file earlier,
    run_filter (Some chunks) existing
    = (file,
       earlier
       ++ [LogFinished
             (List.length (List.concat (map rows chunks)))
             (List.length (filter (row_matches names)
                                  (List.concat (map rows chunks))))
             OUTPUT_PATH],
       None) /\
    List.length earlier = 1 + List.length chunks.
Proof.
  intros Hcols Htext. unfold run_filter.
  match goal with |- context [filter_chunks chunks ?st] =>
    destruct (filter_chunks_invariant names existing chunks [] st Hcols Htext)
      as [st' [Hrun [[Hs [Hm _]] [_ Hl]]]]
  end.
  - unfold filter_invariant. cbn. repeat split; reflexivity.
  - rewrite Hrun. cbn [app] in Hs, Hm. rewrite Hs, Hm.
    do 2 eexists. split; [reflexivity|]. exact Hl.
Qed.

(** ** The extraction run *)

Lemma wait_seconds_bound (err_str : pystr) : (wait_seconds err_str <= 120)%Q.
Proof.
  unfold wait_seconds.
  destruct (Qle_bool _ 120) eqn:E; [apply Qle_bool_iff; exact E | apply Qle_refl].
Qed.

Lemma attempts_loop_outcome (patient_id note_text : pystr) (n : nat) :
  forall (a : nat) (last_error : option pystr) (st : run_state),
    a + n = MAX_429_RETRIES + 1 -> 1 <= n ->
    exists record waits,
      let st' := attempts_loop patient_id note_text (seq a n) last_error st in
      results st' = results st ++ [record] /\
      sleeps st' = sleeps st ++ waits /\
      calls st' = calls st + List.length waits + 1 /\
      List.length waits < n /\
      Forall (fun wait_sec => (wait_sec <= 120)%Q) waits /\
      ((exists k, extraction k patient_id note_text = Returns record) \/
       (exists err, record = error_record patient_id err)).
Proof.
  induction n as [|n IH]; intros a last_error st Ha Hn; [lia|].
  cbn [seq attempts_loop].
  destruct (extraction (calls st) patient_id note_text) as [out|err|err] eqn:E.
  - exists out, []. cbn. rewrite app_nil_r.
    repeat split; try lia; [constructor | left; eauto].
  - exists (error_record patient_id err), []. cbn. rewrite app_nil_r.
    repeat split; try lia; [constructor | right; eauto].
  - destruct (is_429 err && Nat.ltb a MAX_429_RETRIES) eqn:R.
    + apply andb_true_iff in R. destruct R as [_ R].
      apply Nat.ltb_lt in R. unfold MAX_429_RETRIES in *.
      match goal with |- context [attempts_loop _ _ _ _ ?s] =>
        destruct (IH (S a) (Some err) s) as [record [waits H]]; [lia | lia |]
      end.
      cbn in H. destruct H as [Hr [Hs [Hc [Hl [Hw Hrec]]]]].
      exists record, (wait_seconds err :: waits). cbn.
      rewrite Hr, Hs, Hc, <- app_assoc. cbn.
      repeat split; try lia; [|exact Hrec].
      constructor; [apply wait_seconds_bound | exact Hw].
    + exists (error_record patient_id err), []. cbn. rewrite app_nil_r.
      repeat split; try lia; [constructor | right; eauto].
Qed.

Lemma extract_row_outcome (names : list pystr) (st : run_state)
  (idx : nat) (row : list cell) :
  run_invariant st ->
  let st' := extract_row names st (idx, row) in
  run_invariant st' /\
  List.length (results st')
  = List.length (results st)
    + (if note_is_empty (row_item names row TEXT_COLUMN) then 0 else 1) /\
  (extraction_validated ->
   Forall (fun record => schema_valid record = true) (results st) ->
   Forall (fun record => schema_valid record = true) (results st')).
Proof.
  intros [Hc [Hs Hw]]. cbn [extract_row].
  destruct (note_is_empty (row_item names row TEXT_COLUMN)).
  - cbn. unfold run_invariant. cbn. repeat split; auto; lia.
  - destruct (attempts_loop_outcome
                (_get_patient_id names row idx)
                (py_str (cell_value (row_item names row TEXT_COLUMN)))
                (MAX_429_RETRIES + 1) 0 None st eq_refl)
      as [record [waits H]]; [unfold MAX_429_RETRIES; lia|].
    cbv zeta in H. destruct H as [Hr [Hsl [Hca [Hl [Hwa Hrec]]]]].
    cbv zeta. unfold run_invariant. rewrite Hr, Hsl, Hca, !length_app.
    unfold MAX_429_RETRIES in *. cbn [List.length].
    repeat split; try lia.
    + apply Forall_app. split; assumption.
    + intros Hvalid Hall. apply Forall_app. split; [exact Hall|].
      constructor; [|constructor].
      destruct Hrec as [[k Hk] | [err ->]]; [exact (Hvalid _ _ _ _ Hk) | reflexivity].
Qed.

Lemma extract_rows_outcome (names : list pystr)
  (indexed : list (nat * list cell)) (st : run_state) :
  run_invariant st ->
  let st' := fold_left (extract_row names) indexed st in
  run_invariant st' /\
  List.length (results st')
  = List.length (results st)
    + List.length
        (filter (fun row => negb (note_is_empty (row_item names row TEXT_COLUMN)))
                (map snd indexed)) /\
  (extraction_validated ->
   Forall (fun record => schema_valid record = true) (results st) ->
   Forall (fun record => schema_valid record = true) (results st')).
Proof.
  revert st; induction indexed as [|[idx row] indexed IH]; intros st Hinv.
  - cbn. split; [exact Hinv|]. split; [lia | auto].
  - cbn [fold_left map snd filter].
    destruct (extract_row_outcome names st idx row Hinv) as [Hinv1 [Hlen1 Hval1]].
    destruct (IH _ Hinv1) as [Hinv' [Hlen' Hval']].
    cbv zeta in *. split; [exact Hinv'|]. split.
    + rewrite Hlen', Hlen1.
      destruct (note_is_empty (row_item names row TEXT_COLUMN)); cbn; lia.
    + intros Hvalid Hall. apply Hval'; [exact Hvalid|].
      apply Hval1; assumption.
Qed.

Lemma map_snd_indexed {A : Type} (xs : list A) (start : nat) :
  map snd (combine (seq start (List.length xs)) xs) = xs.
Proof.
  revert start; induction xs as [|x xs IH]; intros start; cbn; [reflexivity|].
  rewrite IH. reflexivity.
Qed.

Lemma extract_main_outcome (api_key : option pystr) (notes : option frame)
  (st : run_state) :
  extract_main api_key notes = inl st ->
  exists table,
    notes = Some table /\
    run_invariant st /\
    List.length (results st) = List.length (notes_to_extract table) /\
    (extraction_validated ->
     Forall (fun record => schema_valid record = true) (results st)).
Proof.
  unfold extract_main.
  destruct (validate_settings api_key); [discriminate|].
  destruct notes as [table|]; [|discriminate].
  cbn [columns rows].
  destruct (has_column (columns table) TEXT_COLUMN); [|discriminate].
  cbn [negb]. intros H. injection H as <-. exists table.
  match goal with |- context [fold_left _ ?l ?s] =>
    destruct (extract_rows_outcome (columns table) l s) as [Hinv [Hlen Hval]]
  end.
  { unfold run_invariant. cbn. repeat split; [lia | constructor]. }
  cbv zeta in *. rewrite map_snd_indexed in Hlen.
  split; [reflexivity|]. split; [exact Hinv|]. split.
  - cbn [results]. rewrite Hlen. reflexivity.
  - intros Hvalid. cbn [results]. apply Hval; [exact Hvalid | constructor].
Qed.

(** X23: when [main] of [src/main.py] completes, it has stored exactly one
    record for every non-empty note among the first [MAX_ROWS] rows of the
    table, never none and never two, hence at most five records. *)
Theorem extract_main_one_record_per_note
  (api_key : option pystr) (notes : option frame) (st : run_state) :
  extract_main api_key notes = inl st ->
  exists table,
    notes = Some table /\
    List.length (results st) = List.length (notes_to_extract table) /\
    List.length (results st) <= MAX_ROWS.
Proof.
  intros H. destruct (extract_main_outcome _ _ _ H) as [table [Hn [_ [Hlen _]]]].
  exists table. split; [exact Hn|]. split; [exact Hlen|].
  rewrite Hlen. unfold notes_to_extract.
  etransitivity; [apply filter_length_le|].
  rewrite length_firstn. apply Nat.le_min_l.
Qed.

(** X24: the retries are bounded: every call of [run_extraction] either
    ends the attempts for a note or is followed by one wait, a note is
    waited for at most three times, no wait is longer than 120 seconds, and
    a run makes at most twenty calls. *)
Theorem extract_main_retry_budget
  (api_key : option pystr) (notes : option frame) (st : run_state) :
  extract_main api_key notes = inl st ->
  calls st = List.length (sleeps st) + List.length (results st) /\
  List.length (sleeps st) <= MAX_429_RETRIES * List.length (results st) /\
  Forall (fun wait_sec => (wait_sec <= 120)%Q) (sleeps st) /\
  calls st <= (MAX_429_RETRIES + 1) * MAX_ROWS.
Proof.
  intros H.
  destruct (extract_main_outcome _ _ _ H) as [table [_ [[Hc [Hs Hw]] [Hlen _]]]].
  assert (Hrows : List.length (results st) <= MAX_ROWS).
  { rewrite Hlen. unfold notes_to_extract.
    etransitivity; [apply filter_length_le|].
    rewrite length_firstn. apply Nat.le_min_l. }
  unfold MAX_429_RETRIES, MAX_ROWS in *.
  repeat split; try assumption; lia.
Qed.

(** X25: when every record the agent run hands back passes the schema, so
    does every record [main] of [src/main.py] stores, the records of failed
    extractions included. *)
Theorem extract_main_results_valid
  (api_key : option pystr) (notes : option frame) (st : run_state) :
  extraction_validated ->
  extract_main api_key notes = inl st ->
  Forall (fun record => schema_valid record = true) (results st).
Proof.
  intros Hvalid H.
  destruct (extract_main_outcome _ _ _ H) as [table [_ [_ [_ Hval]]]].
  exact (Hval Hvalid).
Qed.

Lemma strip_without_spaces (s : pystr) :
  forallb (fun c => negb (isspace c)) s = true -> strip s = s.
Proof.
  intros H. unfold strip.
  assert (Hfix : forall t, forallb (fun c => negb (isspace c)) t = true ->
                           lstrip t = t).
  { intros t Ht. apply lstrip_fixed. destruct t as [|c t]; [exact I|].
    simpl in Ht. apply andb_true_iff in Ht. destruct Ht as [Hc _].
    apply negb_true_iff. exact Hc. }
  rewrite (Hfix s H), Hfix, rev_involutive; [reflexivity|].
  rewrite forallb_forall in *. intros x Hx. apply H, in_rev. exact Hx.
Qed.

Lemma digits_without_spaces (d : Decimal.uint) :
  forallb (fun c => negb (isspace c)) (u (NilEmpty.string_of_uint d)) = true.
Proof. induction d; cbn; auto. Qed.

Lemma number_without_spaces (d : Decimal.uint) :
  forallb (fun c => negb (isspace c)) (u (NilZero.string_of_uint d)) = true.
Proof.
  destruct d; first [reflexivity | apply digits_without_spaces].
Qed.

Lemma int_decimal_without_spaces (z : Z) :
  forallb (fun c => negb (isspace c)) (int_decimal z) = true.
Proof.
  unfold int_decimal, NilZero.string_of_int.
  destruct (Z.to_int z) as [d|d].
  - apply number_without_spaces.
  - change (negb (isspace 45)
            && forallb (fun c => negb (isspace c))
                 (u (NilZero.string_of_uint d)) = true).
    rewrite number_without_spaces. reflexivity.
Qed.

Lemma patient_id_from_stripped (names : list pystr) (row : list cell)
  (candidates : list pystr) (patient_id : pystr) :
  patient_id_from names row candidates = Some patient_id ->
  strip patient_id = patient_id.
Proof.
  induction candidates as [|col rest IH]; cbn [patient_id_from]; [discriminate|].
  destruct (has_column names col && _); [|exact IH].
  intros H. injection H as <-. apply strip_idempotent.
Qed.

(** X26: the patient identifier [_get_patient_id] derives never has white
    space around it, whether it comes from a column of the row or from the
    row index. *)
Theorem get_patient_id_is_stripped
  (names : list pystr) (row : list cell) (index : nat) :
  strip (_get_patient_id names row index) = _get_patient_id names row index.
Proof.
  unfold _get_patient_id.
  destruct (patient_id_from names row PATIENT_ID_COLUMNS) as [patient_id|] eqn:E.
  - exact (patient_id_from_stripped _ _ _ _ E).
  - apply strip_without_spaces, int_decimal_without_spaces.
Qed.

End Validation.

(** ** The properties on the sample data *)

Lemma exact_match_accuracy_refines_witness :
  List.length (firstn 2 sample_gold) = List.length sample_pred /\
  compute_exact_match_accuracy sample_float_repr sample_str_repr
    (firstn 2 sample_gold) sample_pred
    (returns (scalar_field [u "diabetes"; u "type"]))
    (returns (scalar_field [u "diabetes"; u "type"]))
  = Ok (1 # 2).
Proof.
  split; [reflexivity|].
  exact (exact_match_accuracy_refines sample_float_repr sample_str_repr
           (firstn 2 sample_gold) sample_pred
           (scalar_field [u "diabetes"; u "type"])
           (scalar_field [u "diabetes"; u "type"]) eq_refl).
Defined.

Lemma list_recall_micro_averaged_witness :
  strip (py_str sample_float_repr sample_str_repr (VStr (u "7.2%")))
  <> strip (py_str sample_float_repr sample_str_repr (VStr (u "8.1%"))) /\
  compute_list_recall sample_float_repr sample_str_repr
    [str_list ["7.2%"; "8.1%"]; str_list ["6.5%"]]
    [str_list ["7.2%"]; str_list ["6.5%"]]
    (returns (fun record => record)) (returns (fun record => record))
  = Ok (2 # 3).
Proof.
  assert (H : strip (py_str sample_float_repr sample_str_repr (VStr (u "7.2%")))
              <> strip (py_str sample_float_repr sample_str_repr (VStr (u "8.1%"))))
    by (vm_compute; discriminate).
  split; [exact H|].
  exact (proj1 (proj2 (list_recall_micro_averaged sample_float_repr sample_str_repr)
                  (fun record => record) (fun record => record)
                  (str_list ["7.2%"; "8.1%"]) (str_list ["6.5%"])
                  (str_list ["7.2%"]) (str_list ["6.5%"])
                  (VStr (u "7.2%")) (VStr (u "8.1%")) (VStr (u "6.5%"))
                  eq_refl eq_refl eq_refl eq_refl H)).
Defined.

Lemma list_recall_no_gold_items_witness :
  gold_items_total (list_field [u "diabetes"; u "a1c_values"])
    sample_gold_no_items sample_pred = 0 /\
  compute_list_recall sample_float_repr sample_str_repr
    sample_gold_no_items sample_pred
    (returns (list_field [u "diabetes"; u "a1c_values"]))
    (returns (list_field [u "diabetes"; u "a1c_values"]))
  = Ok 1%Q.
Proof.
  split; [reflexivity|].
  exact (list_recall_no_gold_items sample_float_repr sample_str_repr
           sample_gold_no_items sample_pred
           (list_field [u "diabetes"; u "a1c_values"])
           (list_field [u "diabetes"; u "a1c_values"]) eq_refl).
Defined.

Lemma get_nested_defaults_no_raise_witness :
  lookup_path (VDict [(u "diabetes", VStr (u "none"))])
    [u "diabetes"; u "type"] = None /\
  _get_nested (VDict [(u "diabetes", VStr (u "none"))])
    [u "diabetes"; u "type"] VNone = Ok (VStr []) /\
  lookup_path (sample_record "Type 1" []) [u "diabetes"; u "type"]
  = Some (VStr (u "Type 1")) /\
  _get_nested (sample_record "Type 1" []) [u "diabetes"; u "type"] (VList [])
  = Ok (VList []).
Proof.
  split; [reflexivity|]. split.
  - exact (proj1 (proj2 (get_nested_defaults_no_raise
                           (VDict [(u "diabetes", VStr (u "none"))])
                           [u "diabetes"; u "type"] VNone)) eq_refl).
  - split; [reflexivity|].
    exact (proj2 (proj2 (get_nested_defaults_no_raise
                           (sample_record "Type 1" [])
                           [u "diabetes"; u "type"] (VList [])))
             (VStr (u "Type 1")) eq_refl eq_refl eq_refl).
Defined.

(** C5, as stated, fails: on a record whose diabetes type is the number 2
    the type accessor returns that number. *)
Lemma accessor_returns_a_number :
  ~ (forall obj get, In get (scalar_accessors ++ list_accessors) ->
       exists v, get obj = Ok v /\ str_or_str_list v = true).
Proof.
  intros H.
  destruct (H numeric_type_record get_diabetes_type (or_introl eq_refl))
    as [v [E T]].
  vm_compute in E. injection E as <-. discriminate T.
Qed.

Lemma accessors_total_witness :
  get_diabetes_type (sample_record "Type 1" ["6.5%"]) = Ok (VStr (u "Type 1")) /\
  is_str (scalar_at (sample_record "Type 1" ["6.5%"]) [u "diabetes"; u "type"])
  = true /\
  str_or_str_list
    (VList (list_at (sample_record "Type 1" ["6.5%"])
              [u "diabetes"; u "a1c_values"])) = true.
Proof.
  destruct (accessors_total (sample_record "Type 1" ["6.5%"]))
    as [[E _] [S L]].
  split; [exact E|]. split.
  - apply S. intros v H _. vm_compute in H. injection H as <-. reflexivity.
  - apply L. intros items H. vm_compute in H. injection H as <-. reflexivity.
Defined.

Lemma run_validation_truncates_witness :
  sample_fs "gold.json" = Json (VList sample_gold) /\
  sample_fs "pred.json" = Json (VList sample_pred) /\
  List.length sample_gold = 3 /\ List.length sample_pred = 2 /\
  exists m,
    run_validation sample_float_repr sample_str_repr sample_fs
      "gold.json" "pred.json" = Ok m /\
    n_samples m = 2 /\
    metrics_over sample_float_repr sample_str_repr
      (firstn 2 sample_gold) (firstn 2 sample_pred) m /\
    diabetes_type_accuracy m = 1 # 2 /\
    diabetes_a1c_recall m = 2 # 3.
Proof.
  repeat (split; [reflexivity|]).
  destruct (run_validation_truncates sample_float_repr sample_str_repr
              sample_fs
              (fun path => if String.eqb path "gold.json"
                           then sample_fs "gold2.json" else sample_fs path)
              "gold.json" "pred.json" sample_gold sample_pred
              eq_refl eq_refl eq_refl eq_refl)
    as [m [Hrun [_ [Hover [Hm [_ Hn]]]]]].
  exists m. split; [exact Hrun|]. split; [exact (Hn eq_refl eq_refl)|].
  split; [exact Hover|]. rewrite Hm. split; reflexivity.
Defined.

Lemma load_errors_reach_entry_point_witness :
  List.length ["validate_extraction.py"; "gold.json"; "nowhere.json"] <> 2 /\
  _load_json sample_fs "gold.json" = Ok sample_gold /\
  _load_json sample_fs "nowhere.json"
  = Raise (FileNotFoundError "Missing file: nowhere.json") /\
  run_validation sample_float_repr sample_str_repr sample_fs
    "gold.json" "nowhere.json"
  = Raise (FileNotFoundError "Missing file: nowhere.json") /\
  main sample_float_repr sample_str_repr sample_format_4f sample_root
    sample_fs ["validate_extraction.py"; "gold.json"; "nowhere.json"]
  = {| stdout := []; stderr := ["Error: Missing file: nowhere.json"];
       returned := Ok 1%Z |}.
Proof.
  assert (Hargv : List.length
                    ["validate_extraction.py"; "gold.json"; "nowhere.json"] <> 2)
    by discriminate.
  split; [exact Hargv|]. split; [reflexivity|]. split; [reflexivity|].
  exact (proj2 (proj2 (load_errors_reach_entry_point
                         sample_float_repr sample_str_repr
                         sample_format_4f sample_root))
           sample_fs ["validate_extraction.py"; "gold.json"; "nowhere.json"]
           (FileNotFoundError "Missing file: nowhere.json")
           "Missing file: nowhere.json"
           Hargv (or_introl eq_refl)
           (or_intror (ex_intro _ sample_gold (conj eq_refl eq_refl)))).
Defined.

Lemma list_recall_permutation_invariant_witness :
  Forall2 (fun pred pred' =>
             Permutation
               (_ensure_list (list_field [u "diabetes"; u "a1c_values"] pred))
               (_ensure_list (list_field [u "diabetes"; u "a1c_values"] pred')))
          sample_pred sample_pred_swapped /\
  compute_list_recall sample_float_repr sample_str_repr
    sample_gold sample_pred
    (returns (list_field [u "diabetes"; u "a1c_values"]))
    (returns (list_field [u "diabetes"; u "a1c_values"]))
  = compute_list_recall sample_float_repr sample_str_repr
      sample_gold sample_pred_swapped
      (returns (list_field [u "diabetes"; u "a1c_values"]))
      (returns (list_field [u "diabetes"; u "a1c_values"])).
Proof.
  assert (H : Forall2 (fun pred pred' =>
             Permutation
               (_ensure_list (list_field [u "diabetes"; u "a1c_values"] pred))
               (_ensure_list (list_field [u "diabetes"; u "a1c_values"] pred')))
          sample_pred sample_pred_swapped).
  { repeat constructor. }
  split; [exact H|].
  exact (list_recall_permutation_invariant sample_float_repr sample_str_repr
           sample_gold sample_pred sample_pred_swapped
           (list_field [u "diabetes"; u "a1c_values"])
           (list_field [u "diabetes"; u "a1c_values"]) H).
Defined.

Lemma accuracy_counts_unpaired_gold_as_incorrect_witness :
  sample_gold <> [] /\
  compute_exact_match_accuracy sample_float_repr sample_str_repr
    sample_gold sample_pred
    (returns (scalar_field [u "diabetes"; u "type"]))
    (returns (scalar_field [u "diabetes"; u "type"]))
  = Ok (1 # 3) /\
  List.length (combine sample_gold sample_pred) = 2.
Proof.
  assert (H : sample_gold <> []) by discriminate.
  split; [exact H|].
  destruct (accuracy_counts_unpaired_gold_as_incorrect
              sample_float_repr sample_str_repr sample_gold sample_pred
              (scalar_field [u "diabetes"; u "type"])
              (scalar_field [u "diabetes"; u "type"]) H)
    as [Hacc [Hlen _]].
  split; [exact Hacc | exact Hlen].
Defined.

Lemma run_validation_no_samples_witness :
  sample_fs "gold.json" = Json (VList sample_gold) /\
  sample_fs "empty.json" = Json (VList []) /\
  Nat.min (List.length sample_gold) (List.length (@nil value)) = 0 /\
  run_validation sample_float_repr sample_str_repr sample_fs
    "gold.json" "empty.json" = Ok empty_metrics.
Proof.
  repeat (split; [reflexivity|]).
  exact (run_validation_no_samples sample_float_repr sample_str_repr
           sample_fs "gold.json" "empty.json" sample_gold []
           eq_refl eq_refl eq_refl).
Defined.

(** ** Runs on the sample files *)

Example run_on_sample_files :
  run_validation sample_float_repr sample_str_repr sample_fs
    "gold.json" "pred.json"
  = Ok {| n_samples := 2;
          diabetes_type_accuracy := 1 # 2;
          diabetes_status_accuracy := 2 # 2;
          diabetes_a1c_recall := 2 # 3;
          diabetes_glucose_recall := 1;
          bp_hypertension_status_accuracy := 2 # 2;
          bp_readings_recall := 1 |}.
Proof. reflexivity. Qed.

Example main_on_empty_predictions :
  main sample_float_repr sample_str_repr sample_format_4f sample_root
    sample_fs ["validate_extraction.py"; "gold.json"; "empty.json"]
  = {| stdout :=
         [ "============================================================";
           "  EXTRACTION VALIDATION REPORT (Gold vs Agent Output)";
           "============================================================";
           (newline ++ "  Total samples evaluated: 0")%string;
           (newline ++ "  No samples to evaluate. Exiting.")%string;
           "============================================================" ];
       stderr := [];
       returned := Ok 0%Z |}.
Proof. reflexivity. Qed.

Example main_on_a_json_object :
  main sample_float_repr sample_str_repr sample_format_4f sample_root
    sample_fs ["validate_extraction.py"; "gold.json"; "object.json"]
  = {| stdout := [];
       stderr := ["Error: Expected a JSON list in object.json, got dict"];
       returned := Ok 1%Z |}.
Proof. reflexivity. Qed.

Example main_with_one_argument :
  main sample_float_repr sample_str_repr sample_format_4f sample_root
    sample_fs ["validate_extraction.py"; "gold.json"]
  = {| stdout := [];
       stderr := ["Usage: validate_extraction.py [gold_standard.json extraction_results.json]"];
       returned := Ok 1%Z |}.
Proof. reflexivity. Qed.

(** ** The further properties on the sample data *)

Lemma accuracy_in_unit_interval_witness :
  compute_exact_match_accuracy sample_float_repr sample_str_repr
    sample_gold sample_pred get_diabetes_type get_diabetes_type = Ok (1 # 3) /\
  (0 <= 1 # 3)%Q /\ (1 # 3 <= 1)%Q.
Proof.
  split; [reflexivity|].
  exact (accuracy_in_unit_interval sample_float_repr sample_str_repr
           sample_gold sample_pred get_diabetes_type get_diabetes_type
           (1 # 3) eq_refl).
Defined.

Lemma recall_in_unit_interval_witness :
  compute_list_recall sample_float_repr sample_str_repr
    sample_gold sample_pred get_diabetes_a1c get_diabetes_a1c = Ok (2 # 3) /\
  (0 <= 2 # 3)%Q /\ (2 # 3 <= 1)%Q.
Proof.
  split; [reflexivity|].
  exact (recall_in_unit_interval sample_float_repr sample_str_repr
           sample_gold sample_pred get_diabetes_a1c get_diabetes_a1c
           (2 # 3) eq_refl).
Defined.

Lemma accuracy_of_identical_sequences_witness :
  sample_gold <> [] /\
  exists q,
    compute_exact_match_accuracy sample_float_repr sample_str_repr
      sample_gold sample_gold
      (returns (scalar_field [u "diabetes"; u "type"]))
      (returns (scalar_field [u "diabetes"; u "type"])) = Ok q /\
    (q == 1)%Q.
Proof.
  assert (H : sample_gold <> []) by discriminate.
  split; [exact H|].
  exact (accuracy_of_identical_sequences sample_float_repr sample_str_repr
           sample_gold (scalar_field [u "diabetes"; u "type"]) H).
Defined.

Lemma accuracy_when_every_pair_differs_witness :
  (forall pair,
     In pair (combine [sample_record "Type 1" []] [sample_record "type 1" []]) ->
     scalar_str sample_float_repr sample_str_repr
       (scalar_field [u "diabetes"; u "type"] (fst pair))
     <> scalar_str sample_float_repr sample_str_repr
          (scalar_field [u "diabetes"; u "type"] (snd pair))) /\
  exists q,
    compute_exact_match_accuracy sample_float_repr sample_str_repr
      [sample_record "Type 1" []] [sample_record "type 1" []]
      (returns (scalar_field [u "diabetes"; u "type"]))
      (returns (scalar_field [u "diabetes"; u "type"])) = Ok q /\
    (q == 0)%Q.
Proof.
  assert (H : forall pair,
     In pair (combine [sample_record "Type 1" []] [sample_record "type 1" []]) ->
     scalar_str sample_float_repr sample_str_repr
       (scalar_field [u "diabetes"; u "type"] (fst pair))
     <> scalar_str sample_float_repr sample_str_repr
          (scalar_field [u "diabetes"; u "type"] (snd pair))).
  { intros pair [<- | []]. vm_compute. discriminate. }
  split; [exact H|].
  exact (accuracy_when_every_pair_differs sample_float_repr sample_str_repr
           [sample_record "Type 1" []] [sample_record "type 1" []]
           (scalar_field [u "diabetes"; u "type"])
           (scalar_field [u "diabetes"; u "type"]) H).
Defined.

Lemma recall_monotone_in_predictions_witness :
  Forall2 (fun pred pred' =>
             incl (_ensure_list (list_field [u "diabetes"; u "a1c_values"] pred))
                  (_ensure_list (list_field [u "diabetes"; u "a1c_values"] pred')))
          [sample_record "" ["8.1%"]] [sample_record "" ["8.1%"; "7.2%"]] /\
  exists q q',
    compute_list_recall sample_float_repr sample_str_repr
      sample_gold [sample_record "" ["8.1%"]]
      (returns (list_field [u "diabetes"; u "a1c_values"]))
      (returns (list_field [u "diabetes"; u "a1c_values"])) = Ok q /\
    compute_list_recall sample_float_repr sample_str_repr
      sample_gold [sample_record "" ["8.1%"; "7.2%"]]
      (returns (list_field [u "diabetes"; u "a1c_values"]))
      (returns (list_field [u "diabetes"; u "a1c_values"])) = Ok q' /\
    (q <= q')%Q.
Proof.
  assert (H : Forall2 (fun pred pred' =>
             incl (_ensure_list (list_field [u "diabetes"; u "a1c_values"] pred))
                  (_ensure_list (list_field [u "diabetes"; u "a1c_values"] pred')))
          [sample_record "" ["8.1%"]] [sample_record "" ["8.1%"; "7.2%"]]).
  { constructor; [|constructor]. intros x [<- | []]. left. reflexivity. }
  split; [exact H|].
  exact (recall_monotone_in_predictions sample_float_repr sample_str_repr
           sample_gold [sample_record "" ["8.1%"]]
           [sample_record "" ["8.1%"; "7.2%"]]
           (list_field [u "diabetes"; u "a1c_values"])
           (list_field [u "diabetes"; u "a1c_values"]) H).
Defined.

Lemma surrounding_whitespace_is_ignored_witness :
  forallb isspace (u "  ") = true /\ forallb isspace [9%N; 10%N] = true /\
  scalar_str sample_float_repr sample_str_repr
    (VStr (u "  " ++ u "Type 1" ++ [9%N; 10%N]))
  = scalar_str sample_float_repr sample_str_repr (VStr (u "Type 1")).
Proof.
  split; [reflexivity|]. split; [reflexivity|].
  exact (proj1 (surrounding_whitespace_is_ignored
                  sample_float_repr sample_str_repr
                  (u "  ") (u "Type 1") [9%N; 10%N] eq_refl eq_refl)).
Defined.

Lemma blank_scalar_scores_as_empty_witness :
  In (get_diabetes_type, [u "diabetes"; u "type"]) scalar_accessor_paths /\
  blank_at (sample_record "  " []) [u "diabetes"; u "type"] /\
  (v <- get_diabetes_type (sample_record "  " []) ;;
   Ok (scalar_str sample_float_repr sample_str_repr v)) = Ok [].
Proof.
  assert (Hin : In (get_diabetes_type, [u "diabetes"; u "type"])
                   scalar_accessor_paths) by (left; reflexivity).
  assert (Hblank : blank_at (sample_record "  " []) [u "diabetes"; u "type"]).
  { right. exists (VStr (u "  ")). split; [reflexivity|].
    right. exists (u "  "). split; reflexivity. }
  split; [exact Hin|]. split; [exact Hblank|].
  exact (blank_scalar_scores_as_empty sample_float_repr sample_str_repr
           (sample_record "  " []) get_diabetes_type [u "diabetes"; u "type"]
           Hin Hblank).
Defined.

Lemma run_validation_metrics_in_range_witness :
  exists m,
    run_validation sample_float_repr sample_str_repr sample_fs
      "gold.json" "pred.json" = Ok m /\
    metrics_in_range m.
Proof.
  eexists. split; [reflexivity|].
  exact (proj1 (run_validation_metrics_in_range sample_float_repr sample_str_repr
                  sample_fs "gold.json" "pred.json" _ eq_refl)).
Defined.

Lemma run_validation_on_identical_records_witness :
  sample_fs "gold.json" = Json (VList sample_gold) /\
  sample_gold <> [] /\
  exists m,
    run_validation sample_float_repr sample_str_repr sample_fs
      "gold.json" "gold.json" = Ok m /\
    n_samples m = 3 /\ metrics_perfect m.
Proof.
  assert (H : sample_gold <> []) by discriminate.
  split; [reflexivity|]. split; [exact H|].
  exact (run_validation_on_identical_records sample_float_repr sample_str_repr
           sample_fs "gold.json" "gold.json" sample_gold eq_refl eq_refl H).
Defined.

Lemma main_outcome_by_case_witness :
  List.length ["validate_extraction.py"; "gold.json"] = 2 /\
  main sample_float_repr sample_str_repr sample_format_4f sample_root
    sample_fs_with_directory ["validate_extraction.py"; "gold.json"]
  = {| stdout := [];
       stderr := ["Usage: validate_extraction.py [gold_standard.json extraction_results.json]"];
       returned := Ok 1%Z |} /\
  List.length ["validate_extraction.py"; "gold.json"; "data"] <> 2 /\
  load_failure sample_fs_with_directory "gold.json" "data"
  = Some (OSError "[Errno 21] Is a directory: 'data'") /\
  main sample_float_repr sample_str_repr sample_format_4f sample_root
    sample_fs_with_directory ["validate_extraction.py"; "gold.json"; "data"]
  = {| stdout := []; stderr := [];
       returned := Raise (OSError "[Errno 21] Is a directory: 'data'") |}.
Proof.
  assert (Hargv : List.length ["validate_extraction.py"; "gold.json"; "data"]
                  <> 2) by discriminate.
  split; [reflexivity|]. split.
  - exact (proj1 (main_outcome_by_case sample_float_repr sample_str_repr
                    sample_format_4f sample_root sample_fs_with_directory
                    ["validate_extraction.py"; "gold.json"]) eq_refl).
  - split; [exact Hargv|]. split; [reflexivity|].
    exact (proj2 (proj2 (main_outcome_by_case sample_float_repr sample_str_repr
                           sample_format_4f sample_root sample_fs_with_directory
                           ["validate_extraction.py"; "gold.json"; "data"])
                    Hargv)).
Defined.


Lemma validate_schema_accepts_witness :
  schema_valid sample_extracted = true /\
  _validate_schema sample_extracted = Ok tt.
Proof.
  split; [reflexivity|].
  exact (proj2 (validate_schema_accepts sample_extracted) eq_refl).
Defined.

Lemma validate_schema_failures_witness :
  _validate_schema (sample_record "Type 1" [])
  = Raise (ValueError "Missing or invalid 'blood_pressure' object") /\
  exists msg,
    ValueError "Missing or invalid 'blood_pressure' object" = ValueError msg /\
    In msg schema_messages.
Proof.
  split; [reflexivity|].
  exact (validate_schema_failures (sample_record "Type 1" []) _ eq_refl).
Defined.

Lemma run_extraction_outcome_witness :
  snd (run_extraction sample_json_block_matches sample_json_loads
         (Some (u "  " ++ sample_answer)) (u "")) = Ok sample_extracted /\
  schema_valid sample_extracted = true /\
  snd (run_extraction sample_json_block_matches sample_json_loads
         None (u "Sorry, I cannot help."))
  = Raise (ValueError
             "Agent output is not valid JSON: Expecting value: line 1 column 1 (char 0)") /\
  List.length
    (fst (run_extraction sample_json_block_matches sample_json_loads
            None (u "Sorry, I cannot help."))) <= 1.
Proof.
  split; [reflexivity|]. split.
  - exact (proj1 (proj1 (run_extraction_outcome
                           sample_json_block_matches sample_json_loads
                           (Some (u "  " ++ sample_answer)) (u ""))
                    sample_extracted eq_refl)).
  - split; [reflexivity|].
    exact (proj2 (proj2 (run_extraction_outcome
                           sample_json_block_matches sample_json_loads
                           None (u "Sorry, I cannot help."))
                    _ eq_refl)).
Defined.

Lemma text_matches_ascii_witness :
  is_ascii (u "Nonhypertensive; HbA1c 7.2") = true /\
  _text_matches sample_float_repr sample_str_repr sample_lower_nonascii
    (CellStr (u "Nonhypertensive; HbA1c 7.2")) = true.
Proof.
  split; [reflexivity|].
  apply (proj2 (text_matches_ascii sample_float_repr sample_str_repr
                  sample_lower_nonascii (u "Nonhypertensive; HbA1c 7.2")
                  eq_refl)).
  exists (u "a1c"), (u "Nonhypertensive; Hb"), (u "A1c"), (u " 7.2").
  repeat split. right; right; left; reflexivity.
Defined.

Lemma run_filter_output_witness :
  Forall (fun chunk => columns chunk = [u "note_id"; u "text"]) sample_chunks /\
  has_column [u "note_id"; u "text"] (u "text") = true /\
  exists logged,
    run_filter sample_float_repr sample_str_repr sample_root
      sample_lower_nonascii (Some sample_chunks) None
    = (Some {| csv_header := [u "note_id"; u "text"];
               csv_rows := [ [CellInt 1; CellStr (u "Prediabetes noted")];
                             [CellInt 4; CellStr (u "HYPERTENSION, stable")] ] |},
       logged, None).
Proof.
  assert (H : Forall (fun chunk => columns chunk = [u "note_id"; u "text"])
                     sample_chunks) by (repeat constructor).
  split; [exact H|]. split; [reflexivity|].
  exact (run_filter_output sample_float_repr sample_str_repr sample_root
           sample_lower_nonascii [u "note_id"; u "text"] sample_chunks None
           H eq_refl).
Defined.

Lemma run_filter_totals_witness :
  Forall (fun chunk => columns chunk = [u "note_id"; u "text"]) sample_chunks /\
  has_column [u "note_id"; u "text"] (u "text") = true /\
  exists file earlier,
    run_filter sample_float_repr sample_str_repr sample_root
      sample_lower_nonascii (Some sample_chunks) None
    = (file,
       earlier
       ++ [LogFinished 4 2 (OUTPUT_PATH sample_root)],
       None) /\
    List.length earlier = 3.
Proof.
  assert (H : Forall (fun chunk => columns chunk = [u "note_id"; u "text"])
                     sample_chunks) by (repeat constructor).
  split; [exact H|]. split; [reflexivity|].
  exact (run_filter_totals sample_float_repr sample_str_repr sample_root
           sample_lower_nonascii [u "note_id"; u "text"] sample_chunks None
           H eq_refl).
Defined.

Lemma extract_main_one_record_per_note_witness :
  exists st,
    extract_main sample_float_repr sample_str_repr sample_lower_nonascii
      sample_retry_after sample_extraction
      (Some (u "key")) (Some sample_notes) = inl st /\
    List.length (results st) = 2.
Proof.
  eexists. split; [reflexivity|].
  destruct (extract_main_one_record_per_note
              sample_float_repr sample_str_repr sample_lower_nonascii
              sample_retry_after sample_extraction
              (Some (u "key")) (Some sample_notes) _ eq_refl)
    as [table [Hnotes [Hlen _]]].
  injection Hnotes as <-. exact Hlen.
Defined.

Lemma extract_main_retry_budget_witness :
  exists st,
    extract_main sample_float_repr sample_str_repr sample_lower_nonascii
      sample_retry_after sample_extraction
      (Some (u "key")) (Some sample_notes) = inl st /\
    calls st = 3 /\ List.length (sleeps st) = 1 /\
    Forall (fun wait_sec => (wait_sec <= 120)%Q) (sleeps st).
Proof.
  eexists. split; [reflexivity|]. split; [reflexivity|]. split; [reflexivity|].
  exact (proj1 (proj2 (proj2 (extract_main_retry_budget
              sample_float_repr sample_str_repr sample_lower_nonascii
              sample_retry_after sample_extraction
              (Some (u "key")) (Some sample_notes) _ eq_refl)))).
Defined.

Lemma extract_main_results_valid_witness :
  extraction_validated sample_extraction /\
  exists st,
    extract_main sample_float_repr sample_str_repr sample_lower_nonascii
      sample_retry_after sample_extraction
      (Some (u "key")) (Some sample_notes) = inl st /\
    Forall (fun record => schema_valid record = true) (results st).
Proof.
  assert (H : extraction_validated sample_extraction).
  { intros k patient_id note_text out E.
    destruct k as [|[|k]]; try discriminate E.
    injection E as <-. reflexivity. }
  split; [exact H|].
  eexists. split; [reflexivity|].
  exact (extract_main_results_valid
           sample_float_repr sample_str_repr sample_lower_nonascii
           sample_retry_after sample_extraction
           (Some (u "key")) (Some sample_notes) _ H eq_refl).
Defined.
